(** * Wattflex: residential battery control on EPEX day-ahead prices

    A shallow embedding of [battery.py], [epex_optimizer.py] and
    [epex_optimizer_nm.py], with the properties of the two MILP models that
    the specification states.

    Number model.  Python's [int] and [float] values are embedded as exact
    rationals ([Q]); [==] is equality of values.  A division whose divisor
    is zero raises [ZeroDivisionError], as in Python.  [round(x, n)] is
    rounding to [n] decimals, ties to even.  [NaN] exists only in the
    ingestion layer (module [Ingest]), where the source tests for it.

    Effects.  A method that can raise returns a [result]; attributes that
    [__init__] may leave unset are [option] fields and reading an unset one
    raises [AttributeError]; what a method prints is returned as a list of
    lines.  The MILP solver ([scipy.optimize.linprog]) is the one
    collaborator outside the repository: it is a parameter of the methods
    that call it, and [feasible] and [optimal] state its contract.

    The first part holds the definitions: the embedding of the three
    source files, the statements of the specification that are compared
    with it, and the example instances.  The second part holds the
    properties, C1 to C10. *)

From Stdlib Require Import QArith Qround Qabs ZArith List String Bool Lia Lqa.
Import ListNotations.
Open Scope Q_scope.

(** ** Exceptions and the error monad *)

Inductive exn : Type :=
| ZeroDivisionError
| IndexError
| AttributeError (attr : string).

Inductive result (A : Type) : Type :=
| Ok (a : A)
| Raise (e : exn).
Arguments Ok {A} a.
Arguments Raise {A} e.

Definition bind {A B : Type} (r : result A) (k : A -> result B) : result B :=
  match r with
  | Ok a => k a
  | Raise e => Raise e
  end.

Notation "x <- r ;; k" := (bind r (fun x => k))
  (at level 61, r at next level, right associativity).
Notation "' p <- r ;; k" := (bind r (fun v => let p := v in k))
  (at level 61, p pattern, r at next level, right associativity).

(** Reading an attribute that may not have been assigned yet. *)
Definition getattr {A : Type} (name : string) (a : option A) : result A :=
  match a with
  | Some v => Ok v
  | None => Raise (AttributeError name)
  end.

(** ** Python arithmetic on exact values *)

(** [a / b] *)
Definition py_div (a b : Q) : result Q :=
  if Qeq_bool b 0 then Raise ZeroDivisionError else Ok (a / b).

Infix "//" := py_div (at level 40, left associativity).

(** Nearest integer, ties to the even neighbour. *)
Definition round_half_even (x : Q) : Z :=
  let f := Qfloor x in
  match Qcompare (x - inject_Z f) (1 # 2) with
  | Lt => f
  | Gt => (f + 1)%Z
  | Eq => if Z.even f then f else (f + 1)%Z
  end.

Definition pow10 (n : nat) : Q := inject_Z (10 ^ Z.of_nat n).

(** [round(x, ndigits)] *)
Definition py_round (x : Q) (ndigits : nat) : Q :=
  inject_Z (round_half_even (x * pow10 ndigits)) / pow10 ndigits.

(** ** Python lists *)

(** [[c] * n] *)
Definition rep (c : Q) (n : nat) : list Q := repeat c n.

(** [l[i]] *)
Definition getitem {A : Type} (l : list A) (i : nat) : result A :=
  match nth_error l i with
  | Some a => Ok a
  | None => Raise IndexError
  end.

(** [l[i] = v] *)
Fixpoint setitem {A : Type} (l : list A) (i : nat) (v : A) : result (list A) :=
  match l, i with
  | [], _ => Raise IndexError
  | _ :: t, O => Ok (v :: t)
  | a :: t, S j => t' <- setitem t j v ;; Ok (a :: t')
  end.

(** The list [l] after a successful [l[i] = v]. *)
Fixpoint upd {A : Type} (l : list A) (i : nat) (v : A) : list A :=
  match l, i with
  | [], _ => []
  | _ :: t, O => v :: t
  | a :: t, S j => a :: upd t j v
  end.

(** [l[a:b]] for [0 <= a <= b] *)
Definition slice {A : Type} (l : list A) (a b : nat) : list A :=
  firstn (b - a) (skipn a l).

(** [for i in range(n): s = body(i, s)] *)
Fixpoint for_each {S : Type} (l : list nat) (body : nat -> S -> result S)
  (s : S) : result S :=
  match l with
  | [] => Ok s
  | i :: l' => s' <- body i s ;; for_each l' body s'
  end.

Definition for_range {S : Type} (n : nat) (body : nat -> S -> result S)
  (s : S) : result S :=
  for_each (seq 0 n) body s.

(** One [for i in range(n)] loop of the constraint builders: period [i]
    appends the row and the bound that [mk_row i] builds. *)
Definition append_rows (n : nat) (mk_row : nat -> result (list Q * Q))
  (acc : list (list Q) * list Q) : result (list (list Q) * list Q) :=
  for_range n (fun i '(lhs, rhs) =>
    '(tmp_list, b) <- mk_row i ;;
    Ok (lhs ++ [tmp_list], rhs ++ [b])) acc.

(** ** battery.py *)

Record Battery : Type := mkBattery {
  min_soc : Q;
  max_soc : Q;
  battery_size : Q;
  max_discharge_power : Q;
  max_charge_power : Q;
  discharge_ratio : Q;
  charge_ratio : Q;
  efficiency : Q
}.

(** [Battery.__init__] *)
Definition Battery_init
  (battery_size min_soc max_soc max_discharge_power max_charge_power
   efficiency : Q) : result Battery :=
  let self_min_soc :=
    if Qle_bool 0 min_soc && negb (Qle_bool 1 min_soc) then min_soc else 0 in
  let self_max_soc :=
    if negb (Qle_bool max_soc 0) && Qle_bool max_soc 1 then max_soc else 1 in
  d <- max_discharge_power // battery_size ;;
  let self_discharge_ratio := py_round d 3 in
  c <- max_charge_power // battery_size ;;
  let self_charge_ratio := py_round c 3 in
  Ok {| min_soc := self_min_soc;
        max_soc := self_max_soc;
        battery_size := battery_size;
        max_discharge_power := max_discharge_power;
        max_charge_power := max_charge_power;
        discharge_ratio := self_discharge_ratio;
        charge_ratio := self_charge_ratio;
        efficiency := efficiency |}.

(** The battery of the two example scripts. *)
Definition example_battery : result Battery :=
  Battery_init 5 (15 # 100) (9 # 10) (368 # 100) (25 # 10) (9 # 10).

(** [[f(a) for a in l]] with a body that can raise *)
Fixpoint comprehension {A B : Type} (f : A -> result B) (l : list A)
  : result (list B) :=
  match l with
  | [] => Ok []
  | a :: l' => b <- f a ;; bs <- comprehension f l' ;; Ok (b :: bs)
  end.

(** ** The solver boundary: [scipy.optimize.linprog]

    [linprog(c, A_ub, b_ub, A_eq, b_eq, integrality)] minimises [c @ x]
    subject to [A_ub @ x <= b_ub], [A_eq @ x == b_eq], the default bounds
    [0 <= x] and [x[j]] integral wherever [integrality[j] = 1]. *)

Record lp_problem : Type := mkProblem {
  c : list Q;
  A_ub : list (list Q);
  b_ub : list Q;
  A_eq : list (list Q);
  b_eq : list Q;
  integrality : list Q
}.

Record OptimizeResult : Type := mkOptimizeResult {
  success : bool;
  x : list Q;
  message : string
}.

(** [row @ v] *)
Fixpoint dot (row v : list Q) : Q :=
  match row, v with
  | a :: row', b :: v' => a * b + dot row' v'
  | _, _ => 0
  end.

(** [A @ v <= b], row by row *)
Definition sat_ub (A : list (list Q)) (b : list Q) (v : list Q) : Prop :=
  Forall2 (fun row bi => dot row v <= bi) A b.

(** [A @ v == b], row by row *)
Definition sat_eq (A : list (list Q)) (b : list Q) (v : list Q) : Prop :=
  Forall2 (fun row bi => dot row v == bi) A b.

(** [row] with bound [bi] is one of the rows of the system [A], [b]. *)
Definition has_row (A : list (list Q)) (b : list Q) (row : list Q) (bi : Q)
  : Prop :=
  exists k, nth_error A k = Some row /\ nth_error b k = Some bi.

Definition is_integer (q : Q) : Prop := exists n : Z, q == inject_Z n.

(** Entry [j] of the decision vector ([0] past its end). *)
Definition var (v : list Q) (j : nat) : Q := nth j v 0.

Definition feasible (p : lp_problem) (v : list Q) : Prop :=
  List.length v = List.length (c p) /\
  sat_ub (A_ub p) (b_ub p) v /\
  sat_eq (A_eq p) (b_eq p) v /\
  Forall (fun a => 0 <= a) v /\
  (forall j, nth j (integrality p) 0 == 1 -> is_integer (var v j)).

(** What a successful solve returns. *)
Definition optimal (p : lp_problem) (v : list Q) : Prop :=
  feasible p v /\ forall w, feasible p w -> dot (c p) v <= dot (c p) w.

(** ANSI colour codes of the warning printed on a failed solve. *)
Definition esc : string := String (Ascii.ascii_of_nat 27) EmptyString.
Definition warn_color : string := (esc ++ "[93m")%string.
Definition end_warn_color : string := (esc ++ "[0m")%string.
Definition newline : string := String (Ascii.ascii_of_nat 10) EmptyString.

(** ** epex_optimizer_nm.py: the net-metering model

    Layout of the decision vector, [T] entries per block:
    [x_t] (net discharge), [y_t] (charge), [s_t] (soc), [z_t] (boolean). *)

Module NM.

Record EpexOptimizerNM : Type := mkNM {
  prices : list Q;
  battery : Battery;
  cutoff : Q;
  start_soc : Q;
  end_soc : Q;
  T : nat;
  opt : option OptimizeResult;
  yield_in_period : option Q;
  M : Q
}.

(** [EpexOptimizerNM.__init__] *)
Definition __init__ (prices : list Q) (battery : Battery)
  (start_soc end_soc cutoff : Q) : EpexOptimizerNM :=
  {| prices := prices;
     battery := battery;
     cutoff := cutoff;
     start_soc := start_soc;
     end_soc := end_soc;
     T := List.length prices;
     opt := None;
     yield_in_period := None;
     M := 10000000 |}.

(** The methods the class body defines; the class has no base class. *)
Definition methods : list string :=
  [ "__init__"; "LP_optimize"; "get_charges"; "get_discharges"; "get_socs";
    "compute_yield"; "_create_ineqality_constraints";
    "_create_equality_constraints" ]%string.

(** The attributes [__init__] assigns on the instance. *)
Definition instance_attributes : list string :=
  [ "prices"; "battery"; "cutoff"; "start_soc"; "end_soc"; "T"; "opt";
    "yield_in_period"; "M" ]%string.

(** [self.<name>]: attribute lookup on an instance, then on its class. *)
Definition lookup (name : string) : result string :=
  if existsb (String.eqb name) instance_attributes then Ok name
  else if existsb (String.eqb name) methods then Ok name
  else Raise (AttributeError name).

(** [_create_ineqality_constraints] *)
Definition _create_ineqality_constraints (self : EpexOptimizerNM)
  : result (list (list Q) * list Q) :=
  let acc := ([], []) in
  (* x_t <= max_discharge_power *)
  acc <- append_rows (T self) (fun i =>
    let tmp_list := rep 0 (4 * T self) in
    tmp_list <- setitem tmp_list (i + 0 * T self) 1 ;;
    Ok (tmp_list, max_discharge_power (battery self))) acc ;;
  (* y_t <= max_charge_power *)
  acc <- append_rows (T self) (fun i =>
    let tmp_list := rep 0 (4 * T self) in
    tmp_list <- setitem tmp_list (i + 1 * T self) 1 ;;
    Ok (tmp_list, max_charge_power (battery self))) acc ;;
  (* soc <= max_soc *)
  acc <- append_rows (T self) (fun i =>
    let tmp_list := rep 0 (4 * T self) in
    tmp_list <- setitem tmp_list (2 * T self + i) 1 ;;
    Ok (tmp_list, max_soc (battery self))) acc ;;
  (* -soc <= -min_soc *)
  acc <- append_rows (T self) (fun i =>
    let tmp_list := rep 0 (4 * T self) in
    tmp_list <- setitem tmp_list (2 * T self + i) (-(1)) ;;
    Ok (tmp_list, - min_soc (battery self))) acc ;;
  (* x_t <= M (1 - z_t) *)
  acc <- append_rows (T self) (fun i =>
    let tmp_list := rep 0 (4 * T self) in
    tmp_list <- setitem tmp_list (i + 3 * T self) (M self) ;;
    tmp_list <- setitem tmp_list i 1 ;;
    Ok (tmp_list, M self)) acc ;;
  (* y_t <= M z_t *)
  acc <- append_rows (T self) (fun i =>
    let tmp_list := rep 0 (4 * T self) in
    tmp_list <- setitem tmp_list (i + 3 * T self) (- M self) ;;
    tmp_list <- setitem tmp_list (i + 1 * T self) 1 ;;
    Ok (tmp_list, 0)) acc ;;
  Ok acc.

(** The state-transition row of period [i]. *)
Definition transition_row (self : EpexOptimizerNM) (i : nat)
  : result (list Q * Q) :=
  let tmp_list := rep 0 (4 * T self) in
  if (i =? 0)%nat then
    tmp_list <- setitem tmp_list (2 * T self + i + 1) 1 ;;
    cx <- 1 // (battery_size (battery self) * efficiency (battery self)) ;;
    tmp_list <- setitem tmp_list (0 * T self + i) cx ;;
    cy <- (-(1)) // battery_size (battery self) ;;
    tmp_list <- setitem tmp_list (1 * T self + i) cy ;;
    Ok (tmp_list, start_soc self)
  else if (i <? T self - 1)%nat then
    tmp_list <- setitem tmp_list (2 * T self + i) (-(1)) ;;
    tmp_list <- setitem tmp_list (2 * T self + i + 1) 1 ;;
    cx <- 1 // (battery_size (battery self) * efficiency (battery self)) ;;
    tmp_list <- setitem tmp_list (0 * T self + i) cx ;;
    cy <- (-(1)) // battery_size (battery self) ;;
    tmp_list <- setitem tmp_list (1 * T self + i) cy ;;
    Ok (tmp_list, 0)
  else
    tmp_list <- setitem tmp_list (2 * T self + i) (-(1)) ;;
    cx <- 1 // (battery_size (battery self) * efficiency (battery self)) ;;
    tmp_list <- setitem tmp_list (0 * T self + i) cx ;;
    cy <- (-(1)) // battery_size (battery self) ;;
    tmp_list <- setitem tmp_list (1 * T self + i) cy ;;
    Ok (tmp_list, - end_soc self).

(** [_create_equality_constraints] *)
Definition _create_equality_constraints (self : EpexOptimizerNM)
  : result (list (list Q) * list Q) :=
  let acc := ([], []) in
  acc <- append_rows (T self) (transition_row self) acc ;;
  Ok acc.

(** The objective vector of [LP_optimize], in the order [x, y, s, z]. *)
Definition objective (self : EpexOptimizerNM) : result (list Q) :=
  let effective_battery_size :=
    (max_soc (battery self) - min_soc (battery self))
    * battery_size (battery self) in
  xs <- comprehension
          (fun p =>
             r <- cutoff self
                  // (effective_battery_size * efficiency (battery self)) ;;
             Ok (- p + r))
          (prices self) ;;
  Ok (xs ++ map (fun p => p) (prices self) ++ rep 0 (2 * T self)).

(** The arguments [LP_optimize] hands to [linprog]. *)
Definition problem (self : EpexOptimizerNM) : result lp_problem :=
  obj <- objective self ;;
  '(lhs_ineq, rhs_ineq) <- _create_ineqality_constraints self ;;
  '(lhs_eq, rhs_eq) <- _create_equality_constraints self ;;
  let integrality := rep 0 (3 * T self) ++ rep 1 (T self) in
  Ok {| c := obj; A_ub := lhs_ineq; b_ub := rhs_ineq;
        A_eq := lhs_eq; b_eq := rhs_eq; integrality := integrality |}.

(** [self.opt = o] *)
Definition set_opt (self : EpexOptimizerNM) (o : option OptimizeResult)
  : EpexOptimizerNM :=
  {| prices := prices self; battery := battery self; cutoff := cutoff self;
     start_soc := start_soc self; end_soc := end_soc self; T := T self;
     opt := o; yield_in_period := yield_in_period self; M := M self |}.

(** [self.yield_in_period = y] *)
Definition set_yield (self : EpexOptimizerNM) (y : Q) : EpexOptimizerNM :=
  {| prices := prices self; battery := battery self; cutoff := cutoff self;
     start_soc := start_soc self; end_soc := end_soc self; T := T self;
     opt := opt self; yield_in_period := Some y; M := M self |}.

(** [LP_optimize]: the new instance and the lines printed. *)
Definition LP_optimize (linprog : lp_problem -> OptimizeResult)
  (self : EpexOptimizerNM) : result (EpexOptimizerNM * list string) :=
  p <- problem self ;;
  let r := linprog p in
  if negb (success r) then
    Ok (set_opt self None,
        [(warn_color ++ newline ++ message r ++ newline
          ++ end_warn_color)%string])
  else Ok (set_opt self (Some r), []).

(** [get_charges] *)
Definition get_charges (self : EpexOptimizerNM) : list Q :=
  match opt self with
  | None => map (fun _ => 0) (seq 0 (T self))
  | Some r =>
      map (fun c => py_round c 4) (slice (x r) (1 * T self) (2 * T self))
  end.

(** [get_discharges] *)
Definition get_discharges (self : EpexOptimizerNM) : list Q :=
  match opt self with
  | None => map (fun _ => 0) (seq 0 (T self))
  | Some r =>
      map (fun dc => py_round (Qabs dc) 4)
          (slice (x r) (0 * T self) (1 * T self))
  end.

(** [get_socs] *)
Definition get_socs (self : EpexOptimizerNM) : result (list Q) :=
  match opt self with
  | None => Ok (map (fun _ => 0) (seq 0 (T self)))
  | Some r =>
      let socs := slice (x r) (2 * T self) (3 * T self) in
      setitem socs 0 (start_soc self)
  end.

(** [compute_yield(do_print = False)]: the value returned and the
    instance with [yield_in_period] recorded. *)
Definition compute_yield (self : EpexOptimizerNM)
  : result (Q * EpexOptimizerNM) :=
  match opt self with
  | None => Ok (0, self)
  | Some _ =>
      let discharge := get_discharges self in
      let charge := get_charges self in
      soc <- get_socs self ;;
      yield_in_period <-
        for_range (T self) (fun i yield_in_period =>
          d <- getitem discharge i ;;
          p <- getitem (prices self) i ;;
          let dis := d * p in
          ch <- getitem charge i ;;
          p' <- getitem (prices self) i ;;
          let cha := ch * p' in
          Ok (yield_in_period + (dis - cha)))
          0 ;;
      Ok (yield_in_period, set_yield self yield_in_period)
  end.

End NM.

(** ** epex_optimizer.py: the general four-flow model

    Layout of the decision vector, [T] entries per block:
    [gx_t] (grid discharge), [zx_t] (self-use discharge), [gy_t] (grid
    charge), [zy_t] (solar charge), [x_t] (total discharge), [y_t] (total
    charge), [s_t] (soc), [z_t] (boolean). *)

(** The household data frame: one row per period, so that its three
    columns have one length. *)
Module DataFrame.

Record row : Type := mkRow {
  electricity_usage : Q;
  electricity_feedin : Q;
  price_euro_per_kwh : Q
}.

Definition t : Type := list row.

End DataFrame.

Module General.

Record EpexOptimizer : Type := mkGeneral {
  df : DataFrame.t;
  battery : Battery;
  start_soc : Q;
  end_soc : Q;
  tax_per_kwh : Q;
  tax_rate : Q;
  allow_grid_discharge : bool;
  allow_grid_charge : bool;
  cutoff : Q;
  interval : string;
  interval_fraction : option Q;   (* unset until assigned *)
  M : Q;
  opt : option OptimizeResult;
  yield_in_period : option Q;
  electricity_use : list Q;
  electricity_feedin : list Q;
  prices : list Q;
  prices_tax : list Q;
  T : option nat                  (* unset until assigned *)
}.

(** [self.T = n] *)
Definition set_T (self : EpexOptimizer) (n : nat) : EpexOptimizer :=
  {| df := df self; battery := battery self; start_soc := start_soc self;
     end_soc := end_soc self; tax_per_kwh := tax_per_kwh self;
     tax_rate := tax_rate self;
     allow_grid_discharge := allow_grid_discharge self;
     allow_grid_charge := allow_grid_charge self; cutoff := cutoff self;
     interval := interval self;
     interval_fraction := interval_fraction self; M := M self;
     opt := opt self; yield_in_period := yield_in_period self;
     electricity_use := electricity_use self;
     electricity_feedin := electricity_feedin self;
     prices := prices self; prices_tax := prices_tax self;
     T := Some n |}.

(** [self.opt = o] *)
Definition set_opt (self : EpexOptimizer) (o : option OptimizeResult)
  : EpexOptimizer :=
  {| df := df self; battery := battery self; start_soc := start_soc self;
     end_soc := end_soc self; tax_per_kwh := tax_per_kwh self;
     tax_rate := tax_rate self;
     allow_grid_discharge := allow_grid_discharge self;
     allow_grid_charge := allow_grid_charge self; cutoff := cutoff self;
     interval := interval self;
     interval_fraction := interval_fraction self; M := M self;
     opt := o; yield_in_period := yield_in_period self;
     electricity_use := electricity_use self;
     electricity_feedin := electricity_feedin self;
     prices := prices self; prices_tax := prices_tax self;
     T := T self |}.

(** [self.yield_in_period = y] *)
Definition set_yield (self : EpexOptimizer) (y : Q) : EpexOptimizer :=
  {| df := df self; battery := battery self; start_soc := start_soc self;
     end_soc := end_soc self; tax_per_kwh := tax_per_kwh self;
     tax_rate := tax_rate self;
     allow_grid_discharge := allow_grid_discharge self;
     allow_grid_charge := allow_grid_charge self; cutoff := cutoff self;
     interval := interval self;
     interval_fraction := interval_fraction self; M := M self;
     opt := opt self; yield_in_period := Some y;
     electricity_use := electricity_use self;
     electricity_feedin := electricity_feedin self;
     prices := prices self; prices_tax := prices_tax self;
     T := T self |}.

(** The message [__init__] prints for an interval it does not know. *)
Definition invalid_interval_message (interval : string) : string :=
  ("Invalid interval entered, assuming hour (valid: hour, quarter, received: "
   ++ interval ++ ")")%string.

(** [EpexOptimizer.__init__], with [_set_period] on values that are not
    NaN (module [Ingest] has it on values that may be): the new instance
    and the lines printed. *)
Definition __init__ (df : DataFrame.t) (battery : Battery)
  (start_soc end_soc tax_rate tax_per_kwh : Q)
  (allow_grid_discharge allow_grid_charge : bool) (cutoff : Q)
  (interval : string) : EpexOptimizer * list string :=
  let '(interval_fraction, printed) :=
    if String.eqb interval "hour" then (Some 1, [])
    else if String.eqb interval "quarter" then (Some (25 # 100), [])
    else (None, [invalid_interval_message interval]) in
  (* _set_period *)
  let el_use := map DataFrame.electricity_usage df in
  let el_feedin := map DataFrame.electricity_feedin df in
  let prices := map DataFrame.price_euro_per_kwh df in
  ({| df := df; battery := battery; start_soc := start_soc;
      end_soc := end_soc; tax_per_kwh := tax_per_kwh; tax_rate := tax_rate;
      allow_grid_discharge := allow_grid_discharge;
      allow_grid_charge := allow_grid_charge; cutoff := cutoff;
      interval := interval; interval_fraction := interval_fraction;
      M := 1000; opt := None; yield_in_period := None;
      electricity_use := el_use; electricity_feedin := el_feedin;
      prices := prices;
      prices_tax := map (fun p => p * (1 + tax_rate) + tax_per_kwh) prices;
      T := None |},
   printed).

(** [_create_ineqality_constraints] *)
Definition _create_ineqality_constraints (self : EpexOptimizer)
  : result (list (list Q) * list Q) :=
  n <- getattr "T" (T self) ;;
  let acc := ([], []) in
  (* soc <= max_soc *)
  acc <- append_rows n (fun i =>
    let tmp_list := rep 0 (8 * n) in
    tmp_list <- setitem tmp_list (6 * n + i) 1 ;;
    Ok (tmp_list, max_soc (battery self))) acc ;;
  (* -soc <= -min_soc *)
  acc <- append_rows n (fun i =>
    let tmp_list := rep 0 (8 * n) in
    tmp_list <- setitem tmp_list (6 * n + i) (-(1)) ;;
    Ok (tmp_list, - min_soc (battery self))) acc ;;
  (* zy_t <= el_feedin *)
  acc <- append_rows n (fun i =>
    let tmp_list := rep 0 (8 * n) in
    tmp_list <- setitem tmp_list (i + 3 * n) 1 ;;
    b <- getitem (electricity_feedin self) i ;;
    Ok (tmp_list, b)) acc ;;
  (* zx_t <= el_use *)
  acc <- append_rows n (fun i =>
    let tmp_list := rep 0 (8 * n) in
    tmp_list <- setitem tmp_list (i + n) 1 ;;
    b <- getitem (electricity_use self) i ;;
    Ok (tmp_list, b)) acc ;;
  (* x_t <= interval_fraction * max_discharge_power *)
  acc <- append_rows n (fun i =>
    let tmp_list := rep 0 (8 * n) in
    tmp_list <- setitem tmp_list (i + 4 * n) 1 ;;
    f <- getattr "interval_fraction" (interval_fraction self) ;;
    Ok (tmp_list, max_discharge_power (battery self) * f)) acc ;;
  (* y_t <= interval_fraction * max_charge_power *)
  acc <- append_rows n (fun i =>
    let tmp_list := rep 0 (8 * n) in
    tmp_list <- setitem tmp_list (i + 5 * n) 1 ;;
    f <- getattr "interval_fraction" (interval_fraction self) ;;
    Ok (tmp_list, max_charge_power (battery self) * f)) acc ;;
  (* x_t <= M (1 - z_t) *)
  acc <- append_rows n (fun i =>
    let tmp_list := rep 0 (8 * n) in
    tmp_list <- setitem tmp_list (i + 7 * n) (M self) ;;
    tmp_list <- setitem tmp_list (i + 4 * n) 1 ;;
    Ok (tmp_list, M self)) acc ;;
  (* y_t <= M z_t *)
  acc <- append_rows n (fun i =>
    let tmp_list := rep 0 (8 * n) in
    tmp_list <- setitem tmp_list (i + 7 * n) (- M self) ;;
    tmp_list <- setitem tmp_list (i + 5 * n) 1 ;;
    Ok (tmp_list, 0)) acc ;;
  Ok acc.

(** The state-transition row of period [i]. *)
Definition transition_row (self : EpexOptimizer) (n i : nat)
  : result (list Q * Q) :=
  let tmp_list := rep 0 (8 * n) in
  if (i =? 0)%nat then
    tmp_list <- setitem tmp_list (6 * n + i + 1) 1 ;;
    cx <- 1 // (battery_size (battery self) * efficiency (battery self)) ;;
    tmp_list <- setitem tmp_list (4 * n + i) cx ;;
    cy <- (-(1)) // battery_size (battery self) ;;
    tmp_list <- setitem tmp_list (5 * n + i) cy ;;
    Ok (tmp_list, start_soc self)
  else if (i <? n - 1)%nat then
    tmp_list <- setitem tmp_list (6 * n + i) (-(1)) ;;
    tmp_list <- setitem tmp_list (6 * n + i + 1) 1 ;;
    cx <- 1 // (battery_size (battery self) * efficiency (battery self)) ;;
    tmp_list <- setitem tmp_list (4 * n + i) cx ;;
    cy <- (-(1)) // battery_size (battery self) ;;
    tmp_list <- setitem tmp_list (5 * n + i) cy ;;
    Ok (tmp_list, 0)
  else
    tmp_list <- setitem tmp_list (6 * n + i) (-(1)) ;;
    cx <- 1 // (battery_size (battery self) * efficiency (battery self)) ;;
    tmp_list <- setitem tmp_list (4 * n + i) cx ;;
    cy <- (-(1)) // battery_size (battery self) ;;
    tmp_list <- setitem tmp_list (5 * n + i) cy ;;
    Ok (tmp_list, - end_soc self).

(** [tmp_list[i + off] = 1] for every [i in range(n)] *)
Definition set_block (n off : nat) (tmp_list : list Q) : result (list Q) :=
  for_range n (fun i tmp_list => setitem tmp_list (i + off) 1) tmp_list.

(** [_create_equality_constraints] *)
Definition _create_equality_constraints (self : EpexOptimizer)
  : result (list (list Q) * list Q) :=
  n <- getattr "T" (T self) ;;
  let acc := ([], []) in
  acc <- append_rows n (transition_row self n) acc ;;
  (* y_t = gy_t + zy_t *)
  acc <- append_rows n (fun i =>
    let tmp_list := rep 0 (8 * n) in
    tmp_list <- setitem tmp_list (i + 2 * n) 1 ;;
    tmp_list <- setitem tmp_list (i + 3 * n) 1 ;;
    tmp_list <- setitem tmp_list (i + 5 * n) (-(1)) ;;
    Ok (tmp_list, 0)) acc ;;
  (* x_t = gx_t + zx_t *)
  acc <- append_rows n (fun i =>
    let tmp_list := rep 0 (8 * n) in
    tmp_list <- setitem tmp_list i 1 ;;
    tmp_list <- setitem tmp_list (i + n) 1 ;;
    tmp_list <- setitem tmp_list (i + 4 * n) (-(1)) ;;
    Ok (tmp_list, 0)) acc ;;
  acc <-
    (if negb (allow_grid_discharge self) then
       let tmp_list := rep 0 (8 * n) in
       tmp_list <- set_block n 0 tmp_list ;;
       Ok (fst acc ++ [tmp_list], snd acc ++ [0])
     else Ok acc) ;;
  acc <-
    (if negb (allow_grid_charge self) then
       let tmp_list := rep 0 (8 * n) in
       tmp_list <- set_block n (2 * n) tmp_list ;;
       Ok (fst acc ++ [tmp_list], snd acc ++ [0])
     else Ok acc) ;;
  Ok acc.

(** The objective vector of [LP_optimize], in the order
    [gx, zx, gy, zy, x, y, s, z]; [n] is [self.T]. *)
Definition objective (self : EpexOptimizer) (n : nat) : result (list Q) :=
  let neg_prices := map (fun p => - p) (prices self) in
  let neg_prices_tax := map (fun p => - p) (prices_tax self) in
  let effective_battery_size :=
    (max_soc (battery self) - min_soc (battery self))
    * battery_size (battery self) in
  r <- cutoff self // (effective_battery_size * efficiency (battery self)) ;;
  Ok ((neg_prices ++ neg_prices_tax ++ prices_tax self ++ prices self)
      ++ rep r n ++ rep 0 (3 * n)).

(** [LP_optimize] up to the call of the solver: [self.T] is assigned and
    the arguments of [linprog] are built. *)
Definition problem (self : EpexOptimizer)
  : result (EpexOptimizer * lp_problem) :=
  let n := List.length (prices self) in
  let self := set_T self n in
  obj <- objective self n ;;
  '(lhs_ineq, rhs_ineq) <- _create_ineqality_constraints self ;;
  '(lhs_eq, rhs_eq) <- _create_equality_constraints self ;;
  let integrality := rep 0 (7 * n) ++ rep 1 n in
  Ok (self,
      {| c := obj; A_ub := lhs_ineq; b_ub := rhs_ineq;
         A_eq := lhs_eq; b_eq := rhs_eq; integrality := integrality |}).

(** [LP_optimize] (the warning of a failed solve is commented out in this
    class: nothing is printed). *)
Definition LP_optimize (linprog : lp_problem -> OptimizeResult)
  (self : EpexOptimizer) : result EpexOptimizer :=
  '(self, p) <- problem self ;;
  let r := linprog p in
  if negb (success r) then Ok (set_opt self None)
  else Ok (set_opt self (Some r)).

(** The accessors share one shape: zeros without a solution, a slice of
    the solution vector with one. *)
Definition block (self : EpexOptimizer) (a b : nat) : result (list Q) :=
  match opt self with
  | None =>
      n <- getattr "T" (T self) ;;
      Ok (map (fun _ => 0) (seq 0 n))
  | Some r =>
      n <- getattr "T" (T self) ;;
      Ok (slice (x r) (a * n) (b * n))
  end.

Definition get_grid_discharges (self : EpexOptimizer) := block self 0 1.
Definition get_selfuse_discharges (self : EpexOptimizer) := block self 1 2.
Definition get_grid_charges (self : EpexOptimizer) := block self 2 3.
Definition get_solar_charges (self : EpexOptimizer) := block self 3 4.
Definition get_charges (self : EpexOptimizer) := block self 5 6.
Definition get_discharges (self : EpexOptimizer) := block self 4 5.

(** [get_socs] *)
Definition get_socs (self : EpexOptimizer) : result (list Q) :=
  match opt self with
  | None =>
      n <- getattr "T" (T self) ;;
      Ok (map (fun _ => 0) (seq 0 n))
  | Some r =>
      n <- getattr "T" (T self) ;;
      let socs := slice (x r) (6 * n) (7 * n) in
      setitem socs 0 (start_soc self)
  end.

(** The no-battery cost of period [i], as both branches of
    [compute_yield] add it up. *)
Definition orig_cost_term (self : EpexOptimizer) (i : nat) : result Q :=
  f <- getitem (electricity_feedin self) i ;;
  p <- getitem (prices self) i ;;
  u <- getitem (electricity_use self) i ;;
  pt <- getitem (prices_tax self) i ;;
  Ok (py_round (- f * p + u * pt) 6).

(** [compute_yield(do_print = False)]: the pair returned and the
    instance with [yield_in_period] recorded. *)
Definition compute_yield (self : EpexOptimizer)
  : result ((Q * Q) * EpexOptimizer) :=
  match opt self with
  | None =>
      n <- getattr "T" (T self) ;;
      orig_cost <-
        for_range n (fun i orig_cost =>
          t <- orig_cost_term self i ;; Ok (orig_cost + t)) 0 ;;
      Ok ((0, orig_cost), self)
  | Some _ =>
      grid_discharge <- get_grid_discharges self ;;
      selfuse_discharge <- get_selfuse_discharges self ;;
      grid_charge <- get_grid_charges self ;;
      solar_charge <- get_solar_charges self ;;
      discharge <- get_discharges self ;;
      charge <- get_charges self ;;
      soc <- get_socs self ;;
      n <- getattr "T" (T self) ;;
      '(extra_cost, orig_cost) <-
        for_range n (fun i '(extra_cost, orig_cost) =>
          gc <- getitem grid_charge i ;;
          pt <- getitem (prices_tax self) i ;;
          sc <- getitem solar_charge i ;;
          p <- getitem (prices self) i ;;
          sd <- getitem selfuse_discharge i ;;
          gd <- getitem grid_discharge i ;;
          t <- orig_cost_term self i ;;
          Ok (extra_cost + (gc * pt + sc * p - sd * pt - gd * p),
              orig_cost + t))
          (0, 0) ;;
      let self := set_yield self (- extra_cost) in
      let total_cost := orig_cost + extra_cost in
      Ok ((- extra_cost, total_cost), self)
  end.

End General.

(** ** Ingestion of values that may be NaN

    The data frame of the general model and the price list of the
    net-metering model hold floats, which may be NaN.  This module embeds
    the statements of the two constructors that touch them, on values with
    NaN; arithmetic with a NaN operand is NaN. *)

Module Ingest.

Inductive float : Type :=
| Fin (q : Q)
| NaN.

(** [math.isnan] *)
Definition isnan (a : float) : bool :=
  match a with
  | NaN => true
  | Fin _ => false
  end.

Definition fneg (a : float) : float :=
  match a with
  | Fin q => Fin (- q)
  | NaN => NaN
  end.

Definition fadd (a b : float) : float :=
  match a, b with
  | Fin p, Fin q => Fin (p + q)
  | _, _ => NaN
  end.

Definition fmul (a b : float) : float :=
  match a, b with
  | Fin p, Fin q => Fin (p * q)
  | _, _ => NaN
  end.

(** [x if not math.isnan(x) else 0] *)
Definition nan_to_zero (a : float) : float :=
  if negb (isnan a) then a else Fin 0.

Module RawFrame.

Record row : Type := mkRow {
  electricity_usage : float;
  electricity_feedin : float;
  price_euro_per_kwh : float
}.

Definition t : Type := list row.

End RawFrame.

(** The four attributes [_set_period] assigns. *)
Record period : Type := mkPeriod {
  electricity_use : list float;
  electricity_feedin : list float;
  prices : list float;
  prices_tax : list float
}.

(** [EpexOptimizer._set_period] *)
Definition _set_period (df : RawFrame.t) (tax_rate tax_per_kwh : Q)
  : period :=
  let el_use := map RawFrame.electricity_usage df in
  let el_feedin := map RawFrame.electricity_feedin df in
  let prices := map RawFrame.price_euro_per_kwh df in
  (* replace any nans with 0 *)
  let el_use := map (fun a => nan_to_zero a) el_use in
  let el_feedin := map (fun a => nan_to_zero a) el_feedin in
  {| electricity_use := el_use;
     electricity_feedin := el_feedin;
     prices := prices;
     prices_tax :=
       map (fun p => fadd (fmul p (Fin (1 + tax_rate))) (Fin tax_per_kwh))
           prices |}.

(** The objective of [EpexOptimizer.LP_optimize] from these attributes;
    [rate] is the quotient [cutoff / (effective_battery_size * efficiency)]
    and [n] is [self.T]. *)
Definition objective (p : period) (rate : Q) (n : nat) : list float :=
  let neg_prices := map fneg (prices p) in
  let neg_prices_tax := map fneg (prices_tax p) in
  (neg_prices ++ neg_prices_tax ++ prices_tax p ++ prices p)
  ++ repeat (Fin rate) n ++ repeat (Fin 0) (3 * n).

(** [EpexOptimizerNM.__init__]: [self.prices = prices]. *)
Definition NM_prices (prices : list float) : list float := prices.

(** The objective of [EpexOptimizerNM.LP_optimize] from [self.prices]. *)
Definition NM_objective (prices : list float) (rate : Q) : list float :=
  map (fun p => fadd (fneg p) (Fin rate)) prices
  ++ map (fun p => p) prices
  ++ repeat (Fin 0) (2 * List.length prices).

(** A data frame without NaN, as the models above take it. *)
Definition lift_row (r : DataFrame.row) : RawFrame.row :=
  {| RawFrame.electricity_usage := Fin (DataFrame.electricity_usage r);
     RawFrame.electricity_feedin := Fin (DataFrame.electricity_feedin r);
     RawFrame.price_euro_per_kwh :=
       Fin (DataFrame.price_euro_per_kwh r) |}.

(** No entry is NaN. *)
Definition no_nan (l : list float) : Prop :=
  Forall (fun a => isnan a = false) l.

(** One period with a missing price. *)
Definition df_nan_price : RawFrame.t :=
  [ {| RawFrame.electricity_usage := Fin 1;
       RawFrame.electricity_feedin := Fin 1;
       RawFrame.price_euro_per_kwh := NaN |} ].

(** What [_set_period] assigns for it, without taxes. *)
Definition nan_price_period : period := _set_period df_nan_price 0 0.

(** One period with missing usage and feed-in. *)
Definition df_nan_load : RawFrame.t :=
  [ {| RawFrame.electricity_usage := NaN;
       RawFrame.electricity_feedin := NaN;
       RawFrame.price_euro_per_kwh := Fin (1 # 10) |} ].

End Ingest.

(** ** Executable checks of the solver's constraints *)

Definition sat_ub_b (A : list (list Q)) (b : list Q) (v : list Q) : bool :=
  (List.length A =? List.length b)%nat
  && forallb (fun rb => Qle_bool (dot (fst rb) v) (snd rb)) (combine A b).

Definition sat_eq_b (A : list (list Q)) (b : list Q) (v : list Q) : bool :=
  (List.length A =? List.length b)%nat
  && forallb (fun rb => Qeq_bool (dot (fst rb) v) (snd rb)) (combine A b).

(** ** The state transition

    [transition] is the recurrence the equality rows encode: the flows are
    energies of one period (kWh).  [spec_transition] is the recurrence as
    the specification words it, with the interval fraction as a factor. *)

Definition transition (size eff soc charge discharge : Q) : Q :=
  soc + charge / size - discharge / (size * eff).

Definition spec_transition (interval size eff soc charge discharge : Q) : Q :=
  soc + charge * (interval / size) - discharge * (interval / (size * eff)).

(** ** The objective as the specification words it

    [cutoff_rate] is the penalty rate
    [cutoff / (effectiveCapacity * efficiency)].  The specification puts it
    on the state of charge: minimised, the soc variable of every period
    carries [+ cutoff_rate] and the flow variables carry their prices. *)

Definition effective_capacity (b : Battery) : Q :=
  (max_soc b - min_soc b) * battery_size b.

Definition cutoff_rate (b : Battery) (cutoff : Q) : Q :=
  cutoff / (effective_capacity b * efficiency b).

Definition spec_objective_nm (prices : list Q) (rate : Q) (obj : list Q)
  : Prop :=
  let n := List.length prices in
  forall t, (t < n)%nat ->
    var obj t == - nth t prices 0 /\
    var obj (n + t) == nth t prices 0 /\
    var obj (2 * n + t) == rate /\
    var obj (3 * n + t) == 0.

Definition spec_objective_general (prices prices_tax : list Q) (rate : Q)
  (obj : list Q) : Prop :=
  let n := List.length prices in
  forall t, (t < n)%nat ->
    var obj t == - nth t prices 0 /\
    var obj (n + t) == - nth t prices_tax 0 /\
    var obj (2 * n + t) == nth t prices_tax 0 /\
    var obj (3 * n + t) == nth t prices 0 /\
    var obj (4 * n + t) == 0 /\
    var obj (5 * n + t) == 0 /\
    var obj (6 * n + t) == rate /\
    var obj (7 * n + t) == 0.


(** ** Example instances *)

(** [Battery(1, 0, 1, 1, 1, 1)] *)
Definition unit_battery : Battery :=
  Eval vm_compute in
    match Battery_init 1 0 1 1 1 1 with
    | Ok b => b
    | Raise _ => mkBattery 0 0 0 0 0 0 0 0
    end.

(** One period at price 2 with a cutoff of 1, in both models. *)
Definition nm_one_period : NM.EpexOptimizerNM :=
  NM.__init__ [2] unit_battery 0 0 1.

Definition general_one_period : General.EpexOptimizer :=
  fst (General.__init__ [DataFrame.mkRow 0 0 2] unit_battery 0 0 0 0
         true true 1 "hour").

(** Two periods of the net-metering model: charge at price 1, discharge at
    price 2. *)
Definition nm_two_periods : NM.EpexOptimizerNM :=
  NM.__init__ [1; 2] unit_battery 0 0 0.

(** [x = [0, 1], y = [1, 0], s = [0, 1], z = [1, 0]] *)
Definition nm_cycle : list Q := [0; 1; 1; 0; 0; 1; 1; 0].

(** Two quarter-hour periods of the general model, from soc 0 to soc 1/2. *)
Definition two_quarters_df : DataFrame.t :=
  [ DataFrame.mkRow 0 0 1; DataFrame.mkRow 0 0 1 ].

Definition general_two_quarters : General.EpexOptimizer :=
  fst (General.__init__ two_quarters_df unit_battery 0 (1 # 2) 0 0
         true true 0 "quarter").

(** A quarter of a kWh charged from the grid in both periods:
    [gy = y = [1/4, 1/4]], [s = [0, 1/4]], [z = [1, 1]], no discharge. *)
Definition general_charging : list Q :=
  [0; 0;  0; 0;  1 # 4; 1 # 4;  0; 0;  0; 0;  1 # 4; 1 # 4;  0; 1 # 4;  1; 1].

(** ** Reading a schedule back

    [reads_block res v off n]: the accessor returned, without raising, the
    [n] entries of the solution vector [v] from offset [off] on, as they
    are. *)

Definition reads_block (res : result (list Q)) (v : list Q) (off n : nat)
  : Prop :=
  exists l, res = Ok l /\ List.length l = n /\
            forall t, (t < n)%nat -> nth t l 0 = var v (off + t).

(** A recorded solution of [nm_one_period] with thirds of a kWh. *)
Definition nm_thirds : NM.EpexOptimizerNM :=
  NM.set_opt nm_one_period
    (Some {| success := true; x := [1 # 3; 1 # 3; 0; 0];
             message := EmptyString |}).

(** Two periods of the general model with an interval the constructor
    does not know, and the same with ["hour"]. *)
Definition general_day : General.EpexOptimizer * list string :=
  General.__init__ two_quarters_df unit_battery 0 (1 # 2) 0 0
    true true 0 "day".

Definition general_hour : General.EpexOptimizer * list string :=
  General.__init__ two_quarters_df unit_battery 0 (1 # 2) 0 0
    true true 0 "hour".

(** ** Yield and cutoff

    [sum_upto n f] is [f 0 + ... + f (n - 1)], added up from the left as
    the loops of [compute_yield] do. *)

Fixpoint sum_upto (n : nat) (f : nat -> Q) : Q :=
  match n with
  | O => 0
  | S k => sum_upto k f + f k
  end.

(** The yield of a solution vector of the net-metering model as the
    solver returned it, before any rounding. *)
Definition raw_yield (prices v : list Q) : Q :=
  let n := List.length prices in
  sum_upto n (fun t => nth t prices 0 * (var v t - var v (n + t))).

(** The yield of a solution vector as [compute_yield] adds it up: from the
    flows rounded to 4 decimals, the discharge in absolute value. *)
Definition reported_yield (prices v : list Q) : Q :=
  let n := List.length prices in
  sum_upto n
    (fun t =>
       py_round (Qabs (var v t)) 4 * nth t prices 0
       - py_round (var v (n + t)) 4 * nth t prices 0).

(** The energy discharged over the horizon. *)
Definition total_discharge (n : nat) (v : list Q) : Q :=
  sum_upto n (fun t => var v t).

(** The sum of the absolute prices of the horizon. *)
Definition price_mass (prices : list Q) : Q :=
  sum_upto (List.length prices) (fun t => Qabs (nth t prices 0)).

(** The run of the example script: construct, optimise, compute the
    yield. *)
Definition NM_yield (linprog : lp_problem -> OptimizeResult)
  (prices : list Q) (battery : Battery) (start_soc end_soc cutoff : Q)
  : result Q :=
  '(self, _) <-
    NM.LP_optimize linprog
      (NM.__init__ prices battery start_soc end_soc cutoff) ;;
  '(y, _) <- NM.compute_yield self ;;
  Ok y.

(** A solver given by a table of two solutions: [below] for a problem
    whose first objective coefficient is at most [th], [above]
    otherwise. *)
Definition table_solver (th : Q) (below above : list Q)
  : lp_problem -> OptimizeResult :=
  fun p =>
    {| success := true;
       x := if Qle_bool (nth 0 (c p) 0) th then below else above;
       message := EmptyString |}.

(** No flow at all in two periods: a zero vector. *)
Definition nm_idle : list Q := [0; 0; 0; 0; 0; 0; 0; 0].

(** A battery that charges at most 0.00006 kWh per period and gives back
    half of it: [Battery(1, 0, 1, 1, 0.00006, 0.5)]. *)
Definition trickle_battery : Battery :=
  Eval vm_compute in
    match Battery_init 1 0 1 1 (6 # 100000) (1 # 2) with
    | Ok b => b
    | Raise _ => mkBattery 0 0 0 0 0 0 0 0
    end.

(** Its one profitable cycle at the prices 1 and 3: charge 0.00006 kWh in
    the first period, discharge 0.00003 kWh in the second. *)
Definition trickle_cycle : list Q :=
  [0; 3 # 100000;  6 # 100000; 0;  0; 6 # 100000;  1; 0].

(** A battery that gives back half of what it stores:
    [Battery(1, 0, 1, 1, 1, 0.5)]. *)
Definition lossy_battery : Battery :=
  Eval vm_compute in
    match Battery_init 1 0 1 1 1 (1 # 2) with
    | Ok b => b
    | Raise _ => mkBattery 0 0 0 0 0 0 0 0
    end.

(** A full charge in the first period, discharged in the second. *)
Definition lossy_cycle : list Q := [0; 1 # 2;  1; 0;  0; 1;  1; 0].

(** The no-battery cost as [compute_yield] adds it up, every period
    rounded to 6 decimals. *)
Definition original_cost (usage feedin prices prices_tax : list Q) : Q :=
  sum_upto (List.length prices)
    (fun t =>
       py_round (- nth t feedin 0 * nth t prices 0
                 + nth t usage 0 * nth t prices_tax 0) 6).

(** The recorded solution [trickle_cycle] of the instance with the prices
    1 and 3 and [trickle_battery]. *)
Definition nm_trickle_solved : NM.EpexOptimizerNM :=
  NM.set_opt (NM.__init__ [1; 3] trickle_battery 0 0 0)
    (Some {| success := true; x := trickle_cycle; message := EmptyString |}).

(** * Properties *)

(** ** Lists, rows and loops *)

Lemma bind_ok {A B : Type} (r : result A) (k : A -> result B) (b : B) :
  bind r k = Ok b -> exists a, r = Ok a /\ k a = Ok b.
Proof.
  destruct r as [a|e]; simpl; intros H; [eauto | discriminate].
Qed.

Lemma py_div_ok (a b q : Q) : a // b = Ok q -> ~ b == 0 /\ q = a / b.
Proof.
  unfold py_div. destruct (Qeq_bool b 0) eqn:E; intros H; [discriminate|].
  inversion H; subst. split; [|reflexivity].
  intros Hb. apply Qeq_bool_iff in Hb. congruence.
Qed.

Lemma py_div_nonzero (a b : Q) : ~ b == 0 -> a // b = Ok (a / b).
Proof.
  intros Hb. unfold py_div. destruct (Qeq_bool b 0) eqn:E; [|reflexivity].
  apply Qeq_bool_iff in E. contradiction.
Qed.

Lemma getattr_ok {A : Type} (name : string) (o : option A) (a : A) :
  getattr name o = Ok a -> o = Some a.
Proof. destruct o; simpl; intros H; inversion H; reflexivity. Qed.

Lemma getitem_nth (l : list Q) (i : nat) (a : Q) :
  getitem l i = Ok a -> a = nth i l 0.
Proof.
  unfold getitem. destruct (nth_error l i) eqn:E; intros H; inversion H.
  subst. symmetry. apply nth_error_nth. exact E.
Qed.

Lemma getitem_ok {A : Type} (l : list A) (i : nat) (d : A) :
  (i < List.length l)%nat -> getitem l i = Ok (nth i l d).
Proof.
  intros H. unfold getitem. rewrite (nth_error_nth' l d H). reflexivity.
Qed.

Lemma setitem_upd {A : Type} (l : list A) (i : nat) (v : A) (l' : list A) :
  setitem l i v = Ok l' -> l' = upd l i v /\ (i < List.length l)%nat.
Proof.
  revert i l'; induction l as [|a t IH]; intros [|j] l' H; simpl in *;
    try discriminate.
  - inversion H; subst; split; [reflexivity | lia].
  - apply bind_ok in H as (t' & Ht & Hk). inversion Hk; subst.
    destruct (IH _ _ Ht) as [-> Hlt]. split; [reflexivity | lia].
Qed.

Lemma setitem_ok {A : Type} (l : list A) (i : nat) (v : A) :
  (i < List.length l)%nat -> setitem l i v = Ok (upd l i v).
Proof.
  revert i; induction l as [|a t IH]; intros [|j] H; simpl in *; try lia.
  - reflexivity.
  - rewrite IH by lia. reflexivity.
Qed.

Lemma length_upd {A : Type} (l : list A) (i : nat) (v : A) :
  List.length (upd l i v) = List.length l.
Proof.
  revert i; induction l as [|a t IH]; intros [|j]; simpl; auto.
Qed.

Lemma nth_upd (l : list Q) (i j : nat) (a : Q) :
  (i < List.length l)%nat ->
  nth j (upd l i a) 0 = if (j =? i)%nat then a else nth j l 0.
Proof.
  revert i j; induction l as [|b t IH]; intros [|i] [|j] H; simpl in *;
    try lia; try reflexivity.
  apply IH; lia.
Qed.

Lemma length_rep (a : Q) (n : nat) : List.length (rep a n) = n.
Proof. apply repeat_length. Qed.

Lemma nth_rep (a : Q) (n j : nat) :
  nth j (rep a n) 0 = if (j <? n)%nat then a else 0.
Proof.
  unfold rep. revert j; induction n as [|n IH]; intros [|j]; simpl; auto.
Qed.

Lemma dot_rep0 (n : nat) (v : list Q) : dot (rep 0 n) v == 0.
Proof.
  unfold rep. revert v; induction n as [|n IH]; intros [|b v]; simpl;
    try reflexivity.
  rewrite IH. ring.
Qed.

Lemma dot_upd (l : list Q) (i : nat) (a : Q) (v : list Q) :
  (i < List.length l)%nat ->
  dot (upd l i a) v == dot l v + (a - nth i l 0) * nth i v 0.
Proof.
  revert i v; induction l as [|b t IH]; intros [|i] [|w v] H; simpl in *;
    try lia; try ring.
  rewrite IH by lia. ring.
Qed.

Lemma sat_row (P : list Q -> Q -> Prop) (A : list (list Q)) (b : list Q)
  (row : list Q) (bi : Q) :
  Forall2 P A b -> has_row A b row bi -> P row bi.
Proof.
  intros HF (k & HA & Hb). revert k HA Hb.
  induction HF as [|r c0 A b Hr HF IH]; intros [|k] HA Hb; simpl in *;
    try discriminate.
  - inversion HA; inversion Hb; subst; exact Hr.
  - eauto.
Qed.

Lemma sat_ub_row (A : list (list Q)) (b v row : list Q) (bi : Q) :
  sat_ub A b v -> has_row A b row bi -> dot row v <= bi.
Proof. intros H1 H2. exact (sat_row _ _ _ _ _ H1 H2). Qed.

Lemma sat_eq_row (A : list (list Q)) (b v row : list Q) (bi : Q) :
  sat_eq A b v -> has_row A b row bi -> dot row v == bi.
Proof. intros H1 H2. exact (sat_row _ _ _ _ _ H1 H2). Qed.

Lemma has_row_app_l (A A2 : list (list Q)) (b b2 : list Q) (r : list Q)
  (bi : Q) :
  has_row A b r bi -> has_row (A ++ A2) (b ++ b2) r bi.
Proof.
  intros (k & HA & Hb). exists k. split.
  - rewrite nth_error_app1; [exact HA|]. apply nth_error_Some. congruence.
  - rewrite nth_error_app1; [exact Hb|]. apply nth_error_Some. congruence.
Qed.

Lemma has_row_last (A : list (list Q)) (b : list Q) (r : list Q) (bi : Q) :
  List.length A = List.length b -> has_row (A ++ [r]) (b ++ [bi]) r bi.
Proof.
  intros HL. exists (List.length A). split.
  - rewrite nth_error_app2 by lia. rewrite Nat.sub_diag. reflexivity.
  - rewrite HL. rewrite nth_error_app2 by lia. rewrite Nat.sub_diag.
    reflexivity.
Qed.

(** What a loop of [append_rows] that ran to its end has done: the rows
    already there are kept, and every period has contributed the row its
    body built. *)
Lemma append_rows_inv (n : nat) (mk_row : nat -> result (list Q * Q))
  (acc acc' : list (list Q) * list Q) :
  append_rows n mk_row acc = Ok acc' ->
  List.length (fst acc) = List.length (snd acc) ->
  List.length (fst acc') = List.length (snd acc') /\
  (forall r bi, has_row (fst acc) (snd acc) r bi ->
                has_row (fst acc') (snd acc') r bi) /\
  (forall i, (i < n)%nat ->
     exists r bi, mk_row i = Ok (r, bi) /\ has_row (fst acc') (snd acc') r bi).
Proof.
  unfold append_rows, for_range.
  assert (G : forall l acc,
    for_each l (fun i '(lhs, rhs) =>
      '(tmp_list, b) <- mk_row i ;; Ok (lhs ++ [tmp_list], rhs ++ [b]))
      acc = Ok acc' ->
    List.length (fst acc) = List.length (snd acc) ->
    List.length (fst acc') = List.length (snd acc') /\
    (forall r bi, has_row (fst acc) (snd acc) r bi ->
                  has_row (fst acc') (snd acc') r bi) /\
    (forall i, In i l ->
       exists r bi,
         mk_row i = Ok (r, bi) /\ has_row (fst acc') (snd acc') r bi)).
  { induction l as [|i l IH]; intros [A b] H HL; simpl in *.
    - inversion H; subst. repeat split; auto. intros i [].
    - apply bind_ok in H as ([A1 b1] & H1 & H2).
      apply bind_ok in H1 as ([r bi] & Hmk & Hk). simpl in Hk.
      inversion Hk; subst A1 b1; clear Hk.
      destruct (IH _ H2) as (HL' & Hold & Hnew).
      { simpl. rewrite !length_app. simpl. lia. }
      simpl in *. split; [exact HL'|]. split.
      + intros r0 b0 Hr. apply Hold. apply has_row_app_l. exact Hr.
      + intros j [<-|Hj]; [|auto].
        exists r, bi. split; [exact Hmk|]. apply Hold.
        apply has_row_last. exact HL. }
  intros H HL. destruct (G _ _ H HL) as (H1 & H2 & H3).
  split; [exact H1|]. split; [exact H2|].
  intros i Hi. apply H3. apply in_seq. lia.
Qed.

(** A loop of [append_rows] whose bodies all succeed runs to its end. *)
Lemma append_rows_ok (n : nat) (mk_row : nat -> result (list Q * Q))
  (f : nat -> list Q) (g : nat -> Q) (acc : list (list Q) * list Q) :
  (forall i, (i < n)%nat -> mk_row i = Ok (f i, g i)) ->
  append_rows n mk_row acc
  = Ok (fst acc ++ map f (seq 0 n), snd acc ++ map g (seq 0 n)).
Proof.
  unfold append_rows, for_range. intros H.
  assert (G : forall l acc,
    (forall i, In i l -> mk_row i = Ok (f i, g i)) ->
    for_each l (fun i '(lhs, rhs) =>
      '(tmp_list, b) <- mk_row i ;; Ok (lhs ++ [tmp_list], rhs ++ [b]))
      acc = Ok (fst acc ++ map f l, snd acc ++ map g l)).
  { induction l as [|i l IH]; intros [A b] Hl; simpl.
    - rewrite !app_nil_r. reflexivity.
    - rewrite (Hl i) by (left; reflexivity). simpl.
      rewrite IH by (intros j Hj; apply Hl; right; exact Hj). simpl.
      rewrite <- !app_assoc. reflexivity. }
  apply G. intros i Hi. apply H. apply in_seq in Hi. lia.
Qed.

Lemma nth_rep0 (n j : nat) : nth j (rep 0 n) 0 = 0.
Proof. rewrite nth_rep. destruct (j <? n)%nat; reflexivity. Qed.

(** Side conditions on indices. *)
Ltac index_bound :=
  repeat rewrite length_upd; rewrite length_rep; lia.

(** Decide the index comparisons left by [nth_upd]. *)
Ltac decide_indices :=
  repeat match goal with
  | |- context [(?a =? ?b)%nat] =>
      destruct (Nat.eqb_spec a b); [try lia | try lia]
  | H : context [(?a =? ?b)%nat] |- _ =>
      destruct (Nat.eqb_spec a b); [try lia | try lia]
  end.

(** The value of [row @ v] for a row made by assignments into zeros. *)
Ltac dot_rows H :=
  repeat (rewrite dot_upd in H by index_bound);
  rewrite dot_rep0 in H;
  repeat (rewrite nth_upd in H by index_bound);
  repeat rewrite nth_rep0 in H;
  decide_indices.

(** Bring the index of every entry read from a vector to one form. *)
Ltac norm_index :=
  repeat match goal with
  | H : context [nth ?e' ?v 0] |- context [nth ?e ?v 0] =>
      lazymatch e' with
      | e => fail
      | _ => replace e' with e in H by lia
      end
  end.

(** A row built by the body of a loop: name the list each [setitem]
    returned. *)
Ltac invert_row H :=
  repeat match type of H with
  | bind (setitem _ _ _) _ = Ok _ =>
      let l := fresh "l" in
      let Hs := fresh "Hs" in
      apply bind_ok in H as (l & Hs & H);
      apply setitem_upd in Hs as [-> ?]
  | bind (py_div _ _) _ = Ok _ =>
      let q := fresh "q" in
      let Hd := fresh "Hdiv" in
      apply bind_ok in H as (q & Hd & H);
      apply py_div_ok in Hd as [? ->]
  | bind (getitem _ _) _ = Ok _ =>
      let q := fresh "q" in
      let Hg := fresh "Hg" in
      apply bind_ok in H as (q & Hg & H);
      apply getitem_nth in Hg as ->
  | bind (getattr _ _) _ = Ok _ =>
      let q := fresh "q" in
      let Hg := fresh "Ha" in
      apply bind_ok in H as (q & Hg & H);
      apply getattr_ok in Hg
  | Ok _ = Ok _ => inversion H; subst; clear H
  end.

(** One loop of a constraint builder: [E] says that it ran to its end. *)
Ltac next_loop H acc E :=
  apply bind_ok in H as (acc & E & H).

(** ** The inequality system of the net-metering model *)

Lemma NM_ineq_meaning (self : NM.EpexOptimizerNM) (lhs : list (list Q))
  (rhs v : list Q) :
  NM._create_ineqality_constraints self = Ok (lhs, rhs) ->
  sat_ub lhs rhs v ->
  forall t, (t < NM.T self)%nat ->
    var v t <= max_discharge_power (NM.battery self) /\
    var v (NM.T self + t) <= max_charge_power (NM.battery self) /\
    var v (2 * NM.T self + t) <= max_soc (NM.battery self) /\
    min_soc (NM.battery self) <= var v (2 * NM.T self + t) /\
    var v t + NM.M self * var v (3 * NM.T self + t) <= NM.M self /\
    var v (NM.T self + t) <= NM.M self * var v (3 * NM.T self + t).
Proof.
  unfold NM._create_ineqality_constraints. intros H Hsat t Ht.
  next_loop H a1 E1. next_loop H a2 E2. next_loop H a3 E3.
  next_loop H a4 E4. next_loop H a5 E5. next_loop H a6 E6.
  inversion H; subst a6; clear H.
  destruct (append_rows_inv _ _ _ _ E1 eq_refl) as (L1 & _ & N1).
  destruct (append_rows_inv _ _ _ _ E2 L1) as (L2 & K2 & N2).
  destruct (append_rows_inv _ _ _ _ E3 L2) as (L3 & K3 & N3).
  destruct (append_rows_inv _ _ _ _ E4 L3) as (L4 & K4 & N4).
  destruct (append_rows_inv _ _ _ _ E5 L4) as (L5 & K5 & N5).
  destruct (append_rows_inv _ _ _ _ E6 L5) as (L6 & K6 & N6).
  cbn [fst snd] in *.
  destruct (N1 t Ht) as (r1 & b1 & R1 & H1).
  destruct (N2 t Ht) as (r2 & b2 & R2 & H2).
  destruct (N3 t Ht) as (r3 & b3 & R3 & H3).
  destruct (N4 t Ht) as (r4 & b4 & R4 & H4).
  destruct (N5 t Ht) as (r5 & b5 & R5 & H5).
  destruct (N6 t Ht) as (r6 & b6 & R6 & H6).
  apply K2, K3, K4, K5, K6 in H1. apply K3, K4, K5, K6 in H2.
  apply K4, K5, K6 in H3. apply K5, K6 in H4. apply K6 in H5.
  apply (sat_ub_row _ _ v) in H1, H2, H3, H4, H5, H6; try exact Hsat.
  invert_row R1. invert_row R2. invert_row R3. invert_row R4.
  invert_row R5. invert_row R6.
  dot_rows H1. dot_rows H2. dot_rows H3. dot_rows H4. dot_rows H5.
  dot_rows H6.
  unfold var. norm_index.
  repeat split; lra.
Qed.

(** ** The equality system of the net-metering model *)

Lemma NM_eq_meaning (self : NM.EpexOptimizerNM) (lhs : list (list Q))
  (rhs v : list Q) :
  NM._create_equality_constraints self = Ok (lhs, rhs) ->
  sat_eq lhs rhs v ->
  (2 <= NM.T self)%nat ->
  let n := NM.T self in
  let size := battery_size (NM.battery self) in
  let eff := efficiency (NM.battery self) in
  var v (2 * n + 1)
    == NM.start_soc self + var v (n + 0) / size - var v 0 / (size * eff) /\
  (forall t, (0 < t < n - 1)%nat ->
     var v (2 * n + (t + 1))
       == var v (2 * n + t) + var v (n + t) / size
          - var v t / (size * eff)) /\
  NM.end_soc self
    == var v (2 * n + (n - 1)) + var v (n + (n - 1)) / size
       - var v (n - 1) / (size * eff).
Proof.
  intros H Hsat HT n size eff. unfold NM._create_equality_constraints in H.
  next_loop H a1 E1. inversion H; subst a1; clear H.
  destruct (append_rows_inv _ _ _ _ E1 eq_refl) as (_ & _ & N1).
  cbn [fst snd] in N1.
  assert (R : forall t, (t < n)%nat ->
            exists r bi, NM.transition_row self t = Ok (r, bi)
                         /\ dot r v == bi).
  { intros t Ht. destruct (N1 t Ht) as (r & bi & Hr & Hrow).
    exists r, bi. split; [exact Hr|]. exact (sat_eq_row _ _ _ _ _ Hsat Hrow). }
  clear N1 E1 Hsat. unfold NM.transition_row in R. fold n in R.
  split; [|split].
  - destruct (R 0%nat ltac:(lia)) as (r & bi & Hr & Hd).
    change (0 =? 0)%nat with true in Hr. cbv iota in Hr.
    invert_row Hr.
    dot_rows Hd. unfold var, size, eff. norm_index.
    unfold Qdiv in *. lra.
  - intros t Ht. destruct (R t ltac:(lia)) as (r & bi & Hr & Hd).
    destruct (Nat.eqb_spec t 0) as [|_]; [lia|].
    destruct (Nat.ltb_spec t (n - 1)) as [_|]; [|lia].
    invert_row Hr.
    dot_rows Hd. unfold var, size, eff. norm_index.
    unfold Qdiv in *. lra.
  - destruct (R (n - 1)%nat ltac:(lia)) as (r & bi & Hr & Hd).
    destruct (Nat.eqb_spec (n - 1) 0) as [|_]; [lia|].
    destruct (Nat.ltb_spec (n - 1) (n - 1)) as [|_]; [lia|].
    invert_row Hr.
    dot_rows Hd. unfold var, size, eff. norm_index.
    unfold Qdiv in *. lra.
Qed.

(** ** The inequality system of the general model *)

Lemma General_ineq_meaning (self : General.EpexOptimizer) (n : nat)
  (lhs : list (list Q)) (rhs v : list Q) :
  General.T self = Some n ->
  General._create_ineqality_constraints self = Ok (lhs, rhs) ->
  sat_ub lhs rhs v ->
  forall t, (t < n)%nat ->
    var v (6 * n + t) <= max_soc (General.battery self) /\
    min_soc (General.battery self) <= var v (6 * n + t) /\
    var v (3 * n + t) <= nth t (General.electricity_feedin self) 0 /\
    var v (n + t) <= nth t (General.electricity_use self) 0 /\
    (exists f, General.interval_fraction self = Some f /\
       var v (4 * n + t) <= max_discharge_power (General.battery self) * f /\
       var v (5 * n + t) <= max_charge_power (General.battery self) * f) /\
    var v (4 * n + t) + General.M self * var v (7 * n + t)
      <= General.M self /\
    var v (5 * n + t) <= General.M self * var v (7 * n + t).
Proof.
  unfold General._create_ineqality_constraints. intros HT H Hsat t Ht.
  rewrite HT in H. cbn [getattr bind] in H.
  next_loop H a1 E1. next_loop H a2 E2. next_loop H a3 E3.
  next_loop H a4 E4. next_loop H a5 E5. next_loop H a6 E6.
  next_loop H a7 E7. next_loop H a8 E8.
  inversion H; subst a8; clear H.
  destruct (append_rows_inv _ _ _ _ E1 eq_refl) as (L1 & _ & N1).
  destruct (append_rows_inv _ _ _ _ E2 L1) as (L2 & K2 & N2).
  destruct (append_rows_inv _ _ _ _ E3 L2) as (L3 & K3 & N3).
  destruct (append_rows_inv _ _ _ _ E4 L3) as (L4 & K4 & N4).
  destruct (append_rows_inv _ _ _ _ E5 L4) as (L5 & K5 & N5).
  destruct (append_rows_inv _ _ _ _ E6 L5) as (L6 & K6 & N6).
  destruct (append_rows_inv _ _ _ _ E7 L6) as (L7 & K7 & N7).
  destruct (append_rows_inv _ _ _ _ E8 L7) as (L8 & K8 & N8).
  cbn [fst snd] in *.
  destruct (N1 t Ht) as (r1 & b1 & R1 & H1).
  destruct (N2 t Ht) as (r2 & b2 & R2 & H2).
  destruct (N3 t Ht) as (r3 & b3 & R3 & H3).
  destruct (N4 t Ht) as (r4 & b4 & R4 & H4).
  destruct (N5 t Ht) as (r5 & b5 & R5 & H5).
  destruct (N6 t Ht) as (r6 & b6 & R6 & H6).
  destruct (N7 t Ht) as (r7 & b7 & R7 & H7).
  destruct (N8 t Ht) as (r8 & b8 & R8 & H8).
  apply K2, K3, K4, K5, K6, K7, K8 in H1.
  apply K3, K4, K5, K6, K7, K8 in H2. apply K4, K5, K6, K7, K8 in H3.
  apply K5, K6, K7, K8 in H4. apply K6, K7, K8 in H5. apply K7, K8 in H6.
  apply K8 in H7.
  apply (sat_ub_row _ _ v) in H1, H2, H3, H4, H5, H6, H7, H8;
    try exact Hsat.
  clear E1 E2 E3 E4 E5 E6 E7 E8 N1 N2 N3 N4 N5 N6 N7 N8 K2 K3 K4 K5 K6 K7 K8.
  invert_row R1. invert_row R2. invert_row R3. invert_row R4.
  invert_row R5. invert_row R6. invert_row R7. invert_row R8.
  dot_rows H1. dot_rows H2. dot_rows H3. dot_rows H4. dot_rows H5.
  dot_rows H6. dot_rows H7. dot_rows H8.
  match goal with
  | F1 : ?a = Some ?p, F2 : ?a = Some ?q |- _ =>
      rewrite F1 in F2; inversion F2; subst; clear F2
  end.
  unfold var. norm_index.
  repeat split; try lra.
  eexists. split; [eassumption|]. split; lra.
Qed.

(** ** The equality system of the general model *)

Lemma optional_row_keeps (cond : bool) (mk : result (list Q))
  (acc acc' : list (list Q) * list Q) :
  (if cond then tmp_list <- mk ;; Ok (fst acc ++ [tmp_list], snd acc ++ [0])
   else Ok acc) = Ok acc' ->
  forall r bi, has_row (fst acc) (snd acc) r bi ->
               has_row (fst acc') (snd acc') r bi.
Proof.
  destruct cond; intros H r bi Hr.
  - apply bind_ok in H as (l & _ & H). inversion H; subst; simpl.
    apply has_row_app_l. exact Hr.
  - inversion H; subst. exact Hr.
Qed.

Lemma General_eq_meaning (self : General.EpexOptimizer) (n : nat)
  (lhs : list (list Q)) (rhs v : list Q) :
  General.T self = Some n ->
  General._create_equality_constraints self = Ok (lhs, rhs) ->
  sat_eq lhs rhs v ->
  (2 <= n)%nat ->
  let size := battery_size (General.battery self) in
  let eff := efficiency (General.battery self) in
  var v (6 * n + 1)
    == General.start_soc self + var v (5 * n + 0) / size
       - var v (4 * n + 0) / (size * eff) /\
  (forall t, (0 < t < n - 1)%nat ->
     var v (6 * n + (t + 1))
       == var v (6 * n + t) + var v (5 * n + t) / size
          - var v (4 * n + t) / (size * eff)) /\
  General.end_soc self
    == var v (6 * n + (n - 1)) + var v (5 * n + (n - 1)) / size
       - var v (4 * n + (n - 1)) / (size * eff).
Proof.
  intros HT H Hsat Hn size eff.
  unfold General._create_equality_constraints in H.
  rewrite HT in H. cbn [getattr bind] in H.
  next_loop H a1 E1. next_loop H a2 E2. next_loop H a3 E3.
  next_loop H a4 E4. next_loop H a5 E5.
  inversion H; subst a5; clear H.
  destruct (append_rows_inv _ _ _ _ E1 eq_refl) as (L1 & _ & N1).
  destruct (append_rows_inv _ _ _ _ E2 L1) as (L2 & K2 & _).
  destruct (append_rows_inv _ _ _ _ E3 L2) as (L3 & K3 & _).
  pose proof (optional_row_keeps _ _ _ _ E4) as K4.
  pose proof (optional_row_keeps _ _ _ _ E5) as K5.
  cbn [fst snd] in *.
  assert (R : forall t, (t < n)%nat ->
            exists r bi, General.transition_row self n t = Ok (r, bi)
                         /\ dot r v == bi).
  { intros t Ht. destruct (N1 t Ht) as (r & bi & Hr & Hrow).
    exists r, bi. split; [exact Hr|].
    apply K2, K3, K4, K5 in Hrow.
    exact (sat_eq_row _ _ _ _ _ Hsat Hrow). }
  clear N1 E1 E2 E3 E4 E5 K2 K3 K4 K5 Hsat.
  unfold General.transition_row in R.
  split; [|split].
  - destruct (R 0%nat ltac:(lia)) as (r & bi & Hr & Hd).
    change (0 =? 0)%nat with true in Hr. cbv iota in Hr.
    invert_row Hr.
    dot_rows Hd. unfold var, size, eff. norm_index.
    unfold Qdiv in *. lra.
  - intros t Ht. destruct (R t ltac:(lia)) as (r & bi & Hr & Hd).
    destruct (Nat.eqb_spec t 0) as [|_]; [lia|].
    destruct (Nat.ltb_spec t (n - 1)) as [_|]; [|lia].
    invert_row Hr.
    dot_rows Hd. unfold var, size, eff. norm_index.
    unfold Qdiv in *. lra.
  - destruct (R (n - 1)%nat ltac:(lia)) as (r & bi & Hr & Hd).
    destruct (Nat.eqb_spec (n - 1) 0) as [|_]; [lia|].
    destruct (Nat.ltb_spec (n - 1) (n - 1)) as [|_]; [lia|].
    invert_row Hr.
    dot_rows Hd. unfold var, size, eff. norm_index.
    unfold Qdiv in *. lra.
Qed.

(** ** The problem handed to the solver *)

Lemma NM_problem_inv (self : NM.EpexOptimizerNM) (p : lp_problem) :
  NM.problem self = Ok p ->
  NM.objective self = Ok (c p) /\
  NM._create_ineqality_constraints self = Ok (A_ub p, b_ub p) /\
  NM._create_equality_constraints self = Ok (A_eq p, b_eq p) /\
  integrality p = rep 0 (3 * NM.T self) ++ rep 1 (NM.T self).
Proof.
  unfold NM.problem. intros H.
  apply bind_ok in H as (obj & Hobj & H).
  apply bind_ok in H as ([lhs_ineq rhs_ineq] & Hineq & H).
  apply bind_ok in H as ([lhs_eq rhs_eq] & Heq & H).
  inversion H; subst; simpl. auto.
Qed.

Lemma General_problem_inv (self self' : General.EpexOptimizer)
  (p : lp_problem) :
  General.problem self = Ok (self', p) ->
  let n := List.length (General.prices self) in
  self' = General.set_T self n /\
  General.objective self' n = Ok (c p) /\
  General._create_ineqality_constraints self' = Ok (A_ub p, b_ub p) /\
  General._create_equality_constraints self' = Ok (A_eq p, b_eq p) /\
  integrality p = rep 0 (7 * n) ++ rep 1 n.
Proof.
  unfold General.problem. intros H.
  apply bind_ok in H as (obj & Hobj & H).
  apply bind_ok in H as ([lhs_ineq rhs_ineq] & Hineq & H).
  apply bind_ok in H as ([lhs_eq rhs_eq] & Heq & H).
  inversion H; subst; simpl. auto.
Qed.

Lemma General_init_prices_length (df : DataFrame.t) (battery : Battery)
  (start_soc end_soc tax_rate tax_per_kwh : Q) (agd agc : bool) (cutoff : Q)
  (interval : string) :
  List.length
    (General.prices
       (fst (General.__init__ df battery start_soc end_soc tax_rate
               tax_per_kwh agd agc cutoff interval)))
  = List.length df.
Proof.
  unfold General.__init__.
  destruct (String.eqb interval "hour"); [|destruct (String.eqb interval "quarter")];
    simpl; apply length_map.
Qed.

Lemma General_init_M (df : DataFrame.t) (battery : Battery)
  (start_soc end_soc tax_rate tax_per_kwh : Q) (agd agc : bool) (cutoff : Q)
  (interval : string) :
  General.M
    (fst (General.__init__ df battery start_soc end_soc tax_rate
            tax_per_kwh agd agc cutoff interval)) = 1000.
Proof.
  unfold General.__init__.
  destruct (String.eqb interval "hour"); [|destruct (String.eqb interval "quarter")];
    reflexivity.
Qed.

Lemma sat_b_sound (P : Q -> Q -> Prop) (f : Q -> Q -> bool)
  (A : list (list Q)) (b v : list Q) :
  (forall a c, f a c = true -> P a c) ->
  (List.length A =? List.length b)%nat
  && forallb (fun rb => f (dot (fst rb) v) (snd rb)) (combine A b) = true ->
  Forall2 (fun row bi => P (dot row v) bi) A b.
Proof.
  intros Hf. revert b; induction A as [|r A IH]; intros [|bi b] H;
    simpl in *; try discriminate; constructor.
  - apply Hf. apply andb_prop in H as [_ H]. apply andb_prop in H as [H _].
    exact H.
  - apply IH. apply andb_prop in H as [HL H]. apply andb_prop in H as [_ H].
    rewrite HL. exact H.
Qed.

Lemma sat_ub_b_sound (A : list (list Q)) (b v : list Q) :
  sat_ub_b A b v = true -> sat_ub A b v.
Proof.
  apply (sat_b_sound Qle Qle_bool). intros a c0. apply Qle_bool_iff.
Qed.

Lemma sat_eq_b_sound (A : list (list Q)) (b v : list Q) :
  sat_eq_b A b v = true -> sat_eq A b v.
Proof.
  apply (sat_b_sound Qeq Qeq_bool). intros a c0. apply Qeq_bool_iff.
Qed.

(** ** Mutual exclusion of charge and discharge *)

(** The two big-M rows of one period exclude that both totals are
    positive, whatever the positive constant [M] is. *)
Lemma big_M_excludes (M x_t y_t z_t : Q) :
  0 < M ->
  x_t + M * z_t <= M ->
  y_t <= M * z_t ->
  z_t == 0 \/ z_t == 1 ->
  ~ (0 < y_t /\ 0 < x_t).
Proof.
  intros HM Hx Hy [Hz|Hz] [Hy0 Hx0]; rewrite Hz in Hx, Hy; lra.
Qed.

(** C3. In both models, a decision vector that satisfies the inequality
    system handed to the solver, with every flag [z_t] equal to 0 or 1 and
    every entry non-negative, has no period in which the total charge and
    the total discharge are both strictly positive. *)
Theorem C3_mutual_exclusion :
  (forall (prices : list Q) (battery : Battery) (start_soc end_soc cutoff : Q)
          (p : lp_problem) (v : list Q),
     let self := NM.__init__ prices battery start_soc end_soc cutoff in
     let n := NM.T self in
     NM.problem self = Ok p ->
     sat_ub (A_ub p) (b_ub p) v ->
     (forall t, (t < n)%nat ->
        var v (3 * n + t) == 0 \/ var v (3 * n + t) == 1) ->
     Forall (fun a => 0 <= a) v ->
     forall t, (t < n)%nat -> ~ (0 < var v (n + t) /\ 0 < var v t))
  /\
  (forall (df : DataFrame.t) (battery : Battery)
          (start_soc end_soc tax_rate tax_per_kwh : Q)
          (allow_grid_discharge allow_grid_charge : bool) (cutoff : Q)
          (interval : string) (self : General.EpexOptimizer)
          (p : lp_problem) (v : list Q),
     let n := List.length df in
     General.problem
       (fst (General.__init__ df battery start_soc end_soc tax_rate
               tax_per_kwh allow_grid_discharge allow_grid_charge cutoff
               interval)) = Ok (self, p) ->
     sat_ub (A_ub p) (b_ub p) v ->
     (forall t, (t < n)%nat ->
        var v (7 * n + t) == 0 \/ var v (7 * n + t) == 1) ->
     Forall (fun a => 0 <= a) v ->
     forall t, (t < n)%nat ->
       ~ (0 < var v (5 * n + t) /\ 0 < var v (4 * n + t))).
Proof.
  split.
  - intros prices battery start_soc end_soc cutoff p v self n Hp Hsat Hz _
      t Ht.
    apply NM_problem_inv in Hp as (_ & Hineq & _).
    destruct (NM_ineq_meaning _ _ _ _ Hineq Hsat t Ht)
      as (_ & _ & _ & _ & Hx & Hy).
    apply (big_M_excludes (NM.M self) _ _ (var v (3 * n + t)));
      [reflexivity | exact Hx | exact Hy | exact (Hz t Ht)].
  - intros df battery start_soc end_soc tax_rate tax_per_kwh agd agc cutoff
      interval self p v n Hp Hsat Hz _ t Ht.
    apply General_problem_inv in Hp as (Hself & _ & Hineq & _).
    rewrite General_init_prices_length in Hself. fold n in Hself.
    assert (HT : General.T self = Some n) by (subst self; reflexivity).
    assert (HM : General.M self == 1000).
    { subst self. simpl. rewrite General_init_M. reflexivity. }
    destruct (General_ineq_meaning _ _ _ _ _ HT Hineq Hsat t Ht)
      as (_ & _ & _ & _ & _ & Hx & Hy).
    apply (big_M_excludes (General.M self) _ _ (var v (7 * n + t)));
      [rewrite HM; reflexivity | exact Hx | exact Hy | exact (Hz t Ht)].
Qed.

(** C3 on [nm_cycle] and on [general_charging]. *)
Lemma C3_mutual_exclusion_witness :
  ~ (0 < var nm_cycle (2 + 1) /\ 0 < var nm_cycle 1) /\
  ~ (0 < var general_charging (5 * 2 + 0)
     /\ 0 < var general_charging (4 * 2 + 0)).
Proof.
  split.
  - eapply (proj1 C3_mutual_exclusion [1; 2] unit_battery 0 0 0 _ nm_cycle).
    + vm_compute. reflexivity.
    + apply sat_ub_b_sound. vm_compute. reflexivity.
    + intros [|[|t]] Ht; vm_compute in Ht; try lia;
        [right | left]; vm_compute; reflexivity.
    + unfold nm_cycle. repeat constructor; vm_compute; discriminate.
    + vm_compute. lia.
  - eapply (proj2 C3_mutual_exclusion two_quarters_df unit_battery 0 (1 # 2)
              0 0 true true 0 "quarter"%string _ _ general_charging).
    + vm_compute. reflexivity.
    + apply sat_ub_b_sound. vm_compute. reflexivity.
    + intros [|[|t]] Ht; vm_compute in Ht; try lia;
        right; vm_compute; reflexivity.
    + unfold general_charging. repeat constructor; vm_compute; discriminate.
    + vm_compute. lia.
Defined.

(** ** The state-transition recurrence *)

(** With an interval fraction of 1 the recurrence of the specification is
    the one of the code. *)
Lemma spec_transition_hour (size eff soc charge discharge : Q) :
  spec_transition 1 size eff soc charge discharge
  == transition size eff soc charge discharge.
Proof. unfold spec_transition, transition, Qdiv. ring. Qed.

(** C2, as the specification states it, fails for quarter-hour periods:
    the vector [general_charging] satisfies the equality system of
    [general_two_quarters], whose interval fraction is 1/4, and its soc
    after the first period is 1/4, where the recurrence with the interval
    fraction as a factor gives 1/16. *)
Lemma C2_counterexample :
  exists (self : General.EpexOptimizer) (p : lp_problem),
    General.problem general_two_quarters = Ok (self, p) /\
    General.interval_fraction self = Some (25 # 100) /\
    sat_eq (A_eq p) (b_eq p) general_charging /\
    ~ (var general_charging (6 * 2 + 1)
       == spec_transition (25 # 100)
            (battery_size (General.battery self))
            (efficiency (General.battery self))
            (General.start_soc self)
            (var general_charging (5 * 2 + 0))
            (var general_charging (4 * 2 + 0))).
Proof.
  eexists. eexists. split; [vm_compute; reflexivity|].
  split; [reflexivity|]. split.
  - apply sat_eq_b_sound. vm_compute. reflexivity.
  - vm_compute. discriminate.
Qed.

(** C2, amended. In both models with at least two periods, every decision
    vector that satisfies the equality system handed to the solver obeys
    [soc_{t+1} = soc_t + charge_t / capacity
                 - discharge_t / (capacity * efficiency)]
    exactly, the flows being the energies of the period (no interval
    factor, also for quarter-hour periods): the soc after the first period
    is the recurrence from [start_soc], every intermediate period follows
    the recurrence, and the recurrence from the soc of the last period
    gives [end_soc]. *)
Theorem C2_state_transition :
  (forall (prices : list Q) (battery : Battery) (start_soc end_soc cutoff : Q)
          (p : lp_problem) (v : list Q),
     let self := NM.__init__ prices battery start_soc end_soc cutoff in
     let n := List.length prices in
     let step := transition (battery_size battery) (efficiency battery) in
     NM.problem self = Ok p ->
     (2 <= n)%nat ->
     sat_eq (A_eq p) (b_eq p) v ->
     var v (2 * n + 1) == step start_soc (var v (n + 0)) (var v 0) /\
     (forall t, (0 < t < n - 1)%nat ->
        var v (2 * n + (t + 1))
        == step (var v (2 * n + t)) (var v (n + t)) (var v t)) /\
     end_soc
     == step (var v (2 * n + (n - 1))) (var v (n + (n - 1)))
          (var v (n - 1)))
  /\
  (forall (df : DataFrame.t) (battery : Battery)
          (start_soc end_soc tax_rate tax_per_kwh : Q)
          (allow_grid_discharge allow_grid_charge : bool) (cutoff : Q)
          (interval : string) (self : General.EpexOptimizer)
          (p : lp_problem) (v : list Q),
     let n := List.length df in
     let step := transition (battery_size battery) (efficiency battery) in
     General.problem
       (fst (General.__init__ df battery start_soc end_soc tax_rate
               tax_per_kwh allow_grid_discharge allow_grid_charge cutoff
               interval)) = Ok (self, p) ->
     (2 <= n)%nat ->
     sat_eq (A_eq p) (b_eq p) v ->
     var v (6 * n + 1)
     == step start_soc (var v (5 * n + 0)) (var v (4 * n + 0)) /\
     (forall t, (0 < t < n - 1)%nat ->
        var v (6 * n + (t + 1))
        == step (var v (6 * n + t)) (var v (5 * n + t))
             (var v (4 * n + t))) /\
     end_soc
     == step (var v (6 * n + (n - 1))) (var v (5 * n + (n - 1)))
          (var v (4 * n + (n - 1)))).
Proof.
  split.
  - intros prices battery start_soc end_soc cutoff p v self n step Hp Hn
      Hsat.
    apply NM_problem_inv in Hp as (_ & _ & Heq & _).
    exact (NM_eq_meaning self _ _ v Heq Hsat Hn).
  - intros df battery start_soc end_soc tax_rate tax_per_kwh agd agc cutoff
      interval self p v n step Hp Hn Hsat.
    apply General_problem_inv in Hp as (Hself & _ & _ & Heq & _).
    rewrite General_init_prices_length in Hself. fold n in Hself.
    assert (HT : General.T self = Some n) by (subst self; reflexivity).
    pose proof (General_eq_meaning self n _ _ v HT Heq Hsat Hn) as H.
    assert (Hb : General.battery self = battery
                 /\ General.start_soc self = start_soc
                 /\ General.end_soc self = end_soc).
    { subst self. unfold General.__init__.
      destruct (String.eqb interval "hour");
        [|destruct (String.eqb interval "quarter")]; simpl; auto. }
    destruct Hb as (Hb & Hs & He). rewrite Hb, Hs, He in H. exact H.
Qed.

(** The amended C2 on [nm_cycle] and on [general_charging] (quarter-hour
    periods). *)
Lemma C2_state_transition_witness :
  (var nm_cycle (2 * 2 + 1)
   == transition 1 1 0 (var nm_cycle (2 + 0)) (var nm_cycle 0))
  /\
  (var general_charging (6 * 2 + 1)
   == transition 1 1 0 (var general_charging (5 * 2 + 0))
        (var general_charging (4 * 2 + 0))).
Proof.
  split.
  - refine (proj1 (proj1 C2_state_transition [1; 2] unit_battery 0 0 0
                     _ nm_cycle _ _ _)).
    + vm_compute. reflexivity.
    + vm_compute. lia.
    + apply sat_eq_b_sound. vm_compute. reflexivity.
  - refine (proj1 (proj2 C2_state_transition two_quarters_df unit_battery
                     0 (1 # 2) 0 0 true true 0 "quarter"%string _ _
                     general_charging _ _ _)).
    + vm_compute. reflexivity.
    + vm_compute. lia.
    + apply sat_eq_b_sound. vm_compute. reflexivity.
Defined.

(** ** The objective vector *)

Lemma General_init_fields (df : DataFrame.t) (battery : Battery)
  (start_soc end_soc tax_rate tax_per_kwh : Q) (agd agc : bool) (cutoff : Q)
  (interval : string) :
  let self :=
    fst (General.__init__ df battery start_soc end_soc tax_rate tax_per_kwh
           agd agc cutoff interval) in
  General.battery self = battery /\
  General.start_soc self = start_soc /\
  General.end_soc self = end_soc /\
  General.cutoff self = cutoff /\
  General.prices self = map DataFrame.price_euro_per_kwh df /\
  General.prices_tax self
  = map (fun p => p * (1 + tax_rate) + tax_per_kwh)
        (map DataFrame.price_euro_per_kwh df) /\
  General.electricity_use self = map DataFrame.electricity_usage df /\
  General.electricity_feedin self = map DataFrame.electricity_feedin df /\
  General.opt self = None /\
  General.T self = None.
Proof.
  unfold General.__init__.
  destruct (String.eqb interval "hour");
    [|destruct (String.eqb interval "quarter")]; simpl; repeat split.
Qed.

Lemma comprehension_inv {A B : Type} (f : A -> result B) (l : list A)
  (bs : list B) :
  comprehension f l = Ok bs -> Forall2 (fun a b => f a = Ok b) l bs.
Proof.
  revert bs; induction l as [|a l IH]; intros bs H; simpl in H.
  - inversion H; constructor.
  - apply bind_ok in H as (b & Hb & H). apply bind_ok in H as (bs' & Hbs & H).
    inversion H; subst. constructor; auto.
Qed.

Lemma nth_app_at (l l' : list Q) (k t : nat) :
  List.length l = k -> nth (k + t) (l ++ l') 0 = nth t l' 0.
Proof. intros <-. apply app_nth2_plus. Qed.

Lemma nth_app_lt (l l' : list Q) (t : nat) :
  (t < List.length l)%nat -> nth t (l ++ l') 0 = nth t l 0.
Proof. intros H. apply app_nth1. exact H. Qed.

Lemma nth_map_lt (f : Q -> Q) (l : list Q) (t : nat) :
  (t < List.length l)%nat -> nth t (map f l) 0 = f (nth t l 0).
Proof.
  intros H. rewrite (nth_indep _ 0 (f 0)) by (rewrite length_map; exact H).
  apply map_nth.
Qed.

Lemma NM_objective_inv (self : NM.EpexOptimizerNM) (obj : list Q) :
  NM.objective self = Ok obj ->
  exists xs,
    obj = xs ++ map (fun p => p) (NM.prices self) ++ rep 0 (2 * NM.T self) /\
    List.length xs = List.length (NM.prices self) /\
    forall t, (t < List.length (NM.prices self))%nat ->
      nth t xs 0
      = - nth t (NM.prices self) 0
        + cutoff_rate (NM.battery self) (NM.cutoff self).
Proof.
  unfold NM.objective. intros H. apply bind_ok in H as (xs & Hxs & H).
  inversion H; subst; clear H. exists xs. split; [reflexivity|].
  apply comprehension_inv in Hxs.
  induction Hxs as [|a b l bs Hab Hl IH]; simpl.
  - split; [reflexivity | intros t Ht; lia].
  - destruct IH as (IH1 & IH2). split; [congruence|].
    intros [|t] Ht.
    + apply bind_ok in Hab as (q & Hq & Hab). apply py_div_ok in Hq as [_ ->].
      inversion Hab; reflexivity.
    + apply IH2. lia.
Qed.

(** The blocks of a vector are read one after the other. *)
Ltac peel_blocks :=
  repeat first
    [ rewrite nth_app_at
        by (repeat rewrite ?length_map, ?length_rep; congruence || lia)
    | rewrite nth_app_lt
        by (repeat rewrite ?length_map, ?length_rep; congruence || lia) ].

(** C1, as the specification states it, fails in both models: with one
    period at price 2 and a cutoff of 1 (so that the penalty rate is 1) the
    soc variable has coefficient 0 in the vector handed to the solver, not
    the penalty rate. *)
Lemma C1_counterexample :
  (exists p,
     NM.problem nm_one_period = Ok p /\
     ~ spec_objective_nm (NM.prices nm_one_period)
         (cutoff_rate (NM.battery nm_one_period) (NM.cutoff nm_one_period))
         (c p))
  /\
  (exists self p,
     General.problem general_one_period = Ok (self, p) /\
     ~ spec_objective_general (General.prices self) (General.prices_tax self)
         (cutoff_rate (General.battery self) (General.cutoff self)) (c p)).
Proof.
  split.
  - eexists. split; [vm_compute; reflexivity|].
    intros H. destruct (H 0%nat) as (_ & _ & Hs & _); [vm_compute; lia|].
    vm_compute in Hs. discriminate.
  - eexists. eexists. split; [vm_compute; reflexivity|].
    intros H.
    destruct (H 0%nat) as (_ & _ & _ & _ & _ & _ & Hs & _);
      [vm_compute; lia|].
    vm_compute in Hs. discriminate.
Qed.

Lemma NM_objective_coefficients (prices : list Q) (battery : Battery)
  (start_soc end_soc cutoff : Q) (p : lp_problem) :
  let n := List.length prices in
  let rate := cutoff_rate battery cutoff in
  NM.problem (NM.__init__ prices battery start_soc end_soc cutoff) = Ok p ->
  List.length (c p) = (4 * n)%nat /\
  forall t, (t < n)%nat ->
    var (c p) t == - nth t prices 0 + rate /\
    var (c p) (n + t) == nth t prices 0 /\
    var (c p) (2 * n + t) == 0 /\
    var (c p) (3 * n + t) == 0.
Proof.
  intros n rate Hp.
  apply NM_problem_inv in Hp as (Hobj & _).
  apply NM_objective_inv in Hobj as (xs & -> & Hlen & Hxs).
  cbn [NM.__init__ NM.prices NM.T NM.battery NM.cutoff] in *.
  fold n in Hlen, Hxs |- *. split.
  - rewrite !length_app, length_map, length_rep. lia.
  - intros t Ht. unfold var.
    replace (2 * n + t)%nat with (n + (n + t))%nat by lia.
    replace (3 * n + t)%nat with (n + (n + (n + t)))%nat by lia.
    peel_blocks. rewrite Hxs by exact Ht. rewrite map_id.
    rewrite !nth_rep0. repeat split; reflexivity.
Qed.

Lemma General_objective_coefficients (df : DataFrame.t) (battery : Battery)
  (start_soc end_soc tax_rate tax_per_kwh : Q)
  (allow_grid_discharge allow_grid_charge : bool) (cutoff : Q)
  (interval : string) (self : General.EpexOptimizer) (p : lp_problem) :
  let n := List.length df in
  let rate := cutoff_rate battery cutoff in
  General.problem
    (fst (General.__init__ df battery start_soc end_soc tax_rate
            tax_per_kwh allow_grid_discharge allow_grid_charge cutoff
            interval)) = Ok (self, p) ->
  List.length (c p) = (8 * n)%nat /\
  forall t, (t < n)%nat ->
    let price := DataFrame.price_euro_per_kwh
                   (nth t df (DataFrame.mkRow 0 0 0)) in
    let taxed := price * (1 + tax_rate) + tax_per_kwh in
    var (c p) t == - price /\
    var (c p) (n + t) == - taxed /\
    var (c p) (2 * n + t) == taxed /\
    var (c p) (3 * n + t) == price /\
    var (c p) (4 * n + t) == rate /\
    var (c p) (5 * n + t) == 0 /\
    var (c p) (6 * n + t) == 0 /\
    var (c p) (7 * n + t) == 0.
Proof.
  intros n rate Hp.
  apply General_problem_inv in Hp as (Hself & Hobj & _).
  destruct (General_init_fields df battery start_soc end_soc tax_rate
              tax_per_kwh allow_grid_discharge allow_grid_charge cutoff
              interval)
    as (Hb & _ & _ & Hc & Hpr & Hpt & _).
  rewrite General_init_prices_length in Hself, Hobj. fold n in Hself, Hobj.
  unfold General.objective in Hobj.
  apply bind_ok in Hobj as (q & Hq & Hobj). apply py_div_ok in Hq as [_ ->].
  inversion Hobj as [Hc']; clear Hobj Hc'.
  subst self. cbn [General.set_T General.prices General.prices_tax
                   General.battery General.cutoff].
  rewrite Hb, Hc, Hpr, Hpt.
  set (ps := map DataFrame.price_euro_per_kwh df).
  assert (Hps : List.length ps = n) by apply length_map.
  split.
  - rewrite !length_app, !length_map, !length_rep. lia.
  - intros t Ht. cbv zeta. unfold var.
    set (price := DataFrame.price_euro_per_kwh
                    (nth t df (DataFrame.mkRow 0 0 0))).
    assert (Hprice : nth t ps 0 = price).
    { unfold ps, price.
      change 0 with (DataFrame.price_euro_per_kwh (DataFrame.mkRow 0 0 0))
        at 1.
      apply map_nth. }
    rewrite <- !app_assoc.
    replace (2 * n + t)%nat with (n + (n + t))%nat by lia.
    replace (3 * n + t)%nat with (n + (n + (n + t)))%nat by lia.
    replace (4 * n + t)%nat with (n + (n + (n + (n + t))))%nat by lia.
    replace (5 * n + t)%nat with (n + (n + (n + (n + (n + t)))))%nat by lia.
    replace (6 * n + t)%nat
      with (n + (n + (n + (n + (n + (n + t))))))%nat by lia.
    replace (7 * n + t)%nat
      with (n + (n + (n + (n + (n + (n + n + t))))))%nat by lia.
    peel_blocks.
    rewrite !nth_map_lt by (rewrite ?length_map; lia).
    rewrite Hprice. rewrite !nth_rep0, nth_rep.
    destruct (Nat.ltb_spec t n) as [_|]; [|lia].
    repeat split; reflexivity.
Qed.

(** C1, amended. The vector handed to the solver is the negation of the
    maximisation with the penalty [cutoff_rate] on the discharged energy,
    not on the state of charge.  Net-metering model: [- price_t +
    cutoff_rate] on [discharge_t], [price_t] on [charge_t], 0 on [soc_t]
    and on the flag.  General model: [- price_t] on [gridDischarge_t],
    [- taxedPrice_t] on [selfUseDischarge_t], [taxedPrice_t] on
    [gridCharge_t], [price_t] on [solarCharge_t], [cutoff_rate] on
    [totalDischarge_t], and 0 on [totalCharge_t], on [soc_t] and on the
    flag, where [taxedPrice_t = price_t * (1 + taxRate) + fixedTaxPerKwh]. *)
Theorem C1_objective :
  (forall (prices : list Q) (battery : Battery) (start_soc end_soc cutoff : Q)
          (p : lp_problem),
     let n := List.length prices in
     let rate := cutoff_rate battery cutoff in
     NM.problem (NM.__init__ prices battery start_soc end_soc cutoff)
     = Ok p ->
     List.length (c p) = (4 * n)%nat /\
     forall t, (t < n)%nat ->
       var (c p) t == - nth t prices 0 + rate /\
       var (c p) (n + t) == nth t prices 0 /\
       var (c p) (2 * n + t) == 0 /\
       var (c p) (3 * n + t) == 0)
  /\
  (forall (df : DataFrame.t) (battery : Battery)
          (start_soc end_soc tax_rate tax_per_kwh : Q)
          (allow_grid_discharge allow_grid_charge : bool) (cutoff : Q)
          (interval : string) (self : General.EpexOptimizer)
          (p : lp_problem),
     let n := List.length df in
     let rate := cutoff_rate battery cutoff in
     General.problem
       (fst (General.__init__ df battery start_soc end_soc tax_rate
               tax_per_kwh allow_grid_discharge allow_grid_charge cutoff
               interval)) = Ok (self, p) ->
     List.length (c p) = (8 * n)%nat /\
     forall t, (t < n)%nat ->
       let price := DataFrame.price_euro_per_kwh
                      (nth t df (DataFrame.mkRow 0 0 0)) in
       let taxed := price * (1 + tax_rate) + tax_per_kwh in
       var (c p) t == - price /\
       var (c p) (n + t) == - taxed /\
       var (c p) (2 * n + t) == taxed /\
       var (c p) (3 * n + t) == price /\
       var (c p) (4 * n + t) == rate /\
       var (c p) (5 * n + t) == 0 /\
       var (c p) (6 * n + t) == 0 /\
       var (c p) (7 * n + t) == 0).
Proof.
  split.
  - intros prices battery start_soc end_soc cutoff p.
    apply NM_objective_coefficients.
  - intros df battery start_soc end_soc tax_rate tax_per_kwh agd agc cutoff
      interval self p.
    apply General_objective_coefficients.
Qed.

(** The amended C1 on the two one-period instances. *)
Lemma C1_objective_witness :
  (exists p,
     NM.problem nm_one_period = Ok p /\
     var (c p) 0 == - (2) + cutoff_rate unit_battery 1 /\
     var (c p) (2 * 1 + 0) == 0)
  /\
  (exists self p,
     General.problem general_one_period = Ok (self, p) /\
     var (c p) (4 * 1 + 0) == cutoff_rate unit_battery 1 /\
     var (c p) (6 * 1 + 0) == 0).
Proof.
  split.
  - eexists. split; [vm_compute; reflexivity|].
    destruct (proj1 C1_objective [2] unit_battery 0 0 1 _ eq_refl) as [_ H].
    destruct (H 0%nat ltac:(vm_compute; lia)) as (H1 & _ & H3 & _).
    split; [exact H1 | exact H3].
  - eexists. eexists. split; [vm_compute; reflexivity|].
    destruct (proj2 C1_objective [DataFrame.mkRow 0 0 2] unit_battery 0 0 0 0
                true true 1 "hour"%string _ _ eq_refl) as [_ H].
    destruct (H 0%nat ltac:(vm_compute; lia))
      as (_ & _ & _ & _ & H5 & _ & H7 & _).
    split; [exact H5 | exact H7].
Defined.

(** ** Rounding *)

Lemma round_half_even_near (q : Q) :
  - (1 # 2) <= inject_Z (round_half_even q) - q <= 1 # 2.
Proof.
  unfold round_half_even.
  pose proof (Qfloor_le q) as Hlo. pose proof (Qlt_floor q) as Hhi.
  rewrite inject_Z_plus in Hhi. change (inject_Z 1) with 1 in Hhi.
  destruct (Qcompare_spec (q - inject_Z (Qfloor q)) (1 # 2)) as [He|Hl|Hg].
  - destruct (Z.even (Qfloor q)).
    + split; lra.
    + rewrite inject_Z_plus. change (inject_Z 1) with 1. split; lra.
  - split; lra.
  - rewrite inject_Z_plus. change (inject_Z 1) with 1. split; lra.
Qed.

Lemma round_half_even_nonneg (q : Q) : 0 <= q -> (0 <= round_half_even q)%Z.
Proof.
  intros Hq. unfold round_half_even.
  assert (H0 : (0 <= Qfloor q)%Z).
  { change 0%Z with (Qfloor 0). apply Qfloor_resp_le. exact Hq. }
  destruct (Qcompare (q - inject_Z (Qfloor q)) (1 # 2));
    [destruct (Z.even (Qfloor q))| |]; lia.
Qed.

Lemma pow10_pos (n : nat) : 0 < pow10 n.
Proof.
  unfold pow10. change 0 with (inject_Z 0). rewrite <- Zlt_Qlt.
  apply Z.pow_pos_nonneg; lia.
Qed.

(** [round(q, n)] is within half a unit of the last decimal of [q]. *)
Lemma py_round_near (q : Q) (n : nat) :
  - ((1 # 2) / pow10 n) <= py_round q n - q <= (1 # 2) / pow10 n.
Proof.
  unfold py_round. pose proof (pow10_pos n) as HP.
  pose proof (round_half_even_near (q * pow10 n)) as [Hlo Hhi].
  set (r := inject_Z (round_half_even (q * pow10 n))) in *.
  assert (E : r / pow10 n - q == (r - q * pow10 n) / pow10 n)
    by (field; lra).
  rewrite E. split.
  - apply Qle_shift_div_l; [exact HP|].
    setoid_replace (- ((1 # 2) / pow10 n) * pow10 n) with (- (1 # 2))
      by (field; lra).
    exact Hlo.
  - apply Qle_shift_div_r; [exact HP|].
    setoid_replace ((1 # 2) / pow10 n * pow10 n) with (1 # 2)
      by (field; lra).
    exact Hhi.
Qed.

Lemma py_round_nonneg (q : Q) (n : nat) : 0 <= q -> 0 <= py_round q n.
Proof.
  intros Hq. unfold py_round. pose proof (pow10_pos n) as HP.
  apply Qle_shift_div_l; [exact HP|]. rewrite Qmult_0_l.
  change 0 with (inject_Z 0). rewrite <- Zle_Qle.
  apply round_half_even_nonneg.
  apply Qmult_le_0_compat; [exact Hq | lra].
Qed.

(** ** The battery *)

(** C9, as the specification states it, fails for a capacity of 0: the
    derived ratios divide by the capacity and the constructor raises. *)
Lemma C9_counterexample :
  Battery_init 0 0 1 1 1 1 = Raise ZeroDivisionError /\
  ~ (exists b, Battery_init 0 0 1 1 1 1 = Ok b).
Proof.
  split; [reflexivity|]. intros [b Hb]. vm_compute in Hb. discriminate.
Qed.

(** C9, amended. For every capacity other than 0 -- negative ones included
    -- and all power limits, soc bounds and efficiencies, the constructor
    succeeds: it keeps [min_soc] when [0 <= min_soc < 1] and stores 0
    otherwise, keeps [max_soc] when [0 < max_soc <= 1] and stores 1
    otherwise, stores capacity, power limits and efficiency as given, and
    stores the two ratios rounded to 3 decimals. *)
Theorem C9_battery_init (size lo hi dis cha eff : Q) :
  ~ size == 0 ->
  exists b,
    Battery_init size lo hi dis cha eff = Ok b /\
    battery_size b = size /\
    max_discharge_power b = dis /\
    max_charge_power b = cha /\
    efficiency b = eff /\
    (0 <= lo /\ lo < 1 -> min_soc b = lo) /\
    (~ (0 <= lo /\ lo < 1) -> min_soc b = 0) /\
    (0 < hi /\ hi <= 1 -> max_soc b = hi) /\
    (~ (0 < hi /\ hi <= 1) -> max_soc b = 1) /\
    discharge_ratio b = py_round (dis / size) 3 /\
    charge_ratio b = py_round (cha / size) 3.
Proof.
  intros Hsize. unfold Battery_init.
  rewrite !py_div_nonzero by exact Hsize. cbn [bind].
  eexists. split; [reflexivity|]. cbn.
  repeat split; try reflexivity.
  - intros [H0 H1].
    apply Qle_bool_iff in H0. rewrite H0.
    destruct (Qle_bool 1 lo) eqn:E; [|reflexivity].
    apply Qle_bool_iff in E. lra.
  - intros Hn.
    destruct (Qle_bool 0 lo) eqn:E0; [|reflexivity].
    destruct (Qle_bool 1 lo) eqn:E1; [reflexivity|].
    exfalso. apply Hn. apply Qle_bool_iff in E0. split; [exact E0|].
    apply Qnot_le_lt. intros H. apply Qle_bool_iff in H. congruence.
  - intros [H0 H1].
    apply Qle_bool_iff in H1. rewrite H1.
    destruct (Qle_bool hi 0) eqn:E; [|reflexivity].
    apply Qle_bool_iff in E. lra.
  - intros Hn.
    destruct (Qle_bool hi 0) eqn:E0; [reflexivity|].
    destruct (Qle_bool hi 1) eqn:E1; [|reflexivity].
    exfalso. apply Hn. apply Qle_bool_iff in E1. split; [|exact E1].
    apply Qnot_le_lt. intros H. apply Qle_bool_iff in H. congruence.
Qed.

(** The amended C9 on a battery of negative capacity and power. *)
Lemma C9_battery_init_witness :
  exists b,
    Battery_init (- (5)) (- (1)) 2 (- (1)) 0 3 = Ok b /\
    battery_size b = - (5) /\
    max_discharge_power b = - (1) /\
    max_charge_power b = 0 /\
    efficiency b = 3 /\
    (0 <= - (1) /\ - (1) < 1 -> min_soc b = - (1)) /\
    (~ (0 <= - (1) /\ - (1) < 1) -> min_soc b = 0) /\
    (0 < 2 /\ 2 <= 1 -> max_soc b = 2) /\
    (~ (0 < 2 /\ 2 <= 1) -> max_soc b = 1) /\
    discharge_ratio b = py_round (- (1) / - (5)) 3 /\
    charge_ratio b = py_round (0 / - (5)) 3.
Proof.
  apply (C9_battery_init (- (5)) (- (1)) 2 (- (1)) 0 3).
  vm_compute. discriminate.
Defined.

(** The battery of the example scripts is constructed, with a discharge
    ratio of 0.736. *)
Lemma example_battery_built :
  exists b, example_battery = Ok b /\ discharge_ratio b == 736 # 1000
            /\ charge_ratio b == 1 # 2.
Proof.
  eexists. split; [vm_compute; reflexivity|]. split; reflexivity.
Qed.

(** ** Schedule accessors *)

Lemma length_slice {A : Type} (l : list A) (a b : nat) :
  (b <= List.length l)%nat -> List.length (slice l a b) = (b - a)%nat.
Proof.
  intros H. unfold slice. rewrite length_firstn, length_skipn. lia.
Qed.

Lemma nth_slice (l : list Q) (a b t : nat) :
  (t < b - a)%nat -> nth t (slice l a b) 0 = nth (a + t) l 0.
Proof.
  intros H. unfold slice. rewrite nth_firstn.
  destruct (Nat.ltb_spec t (b - a)); [|lia]. apply nth_skipn.
Qed.

Lemma General_block_reads (self : General.EpexOptimizer)
  (r : OptimizeResult) (n a : nat) :
  General.opt self = Some r ->
  General.T self = Some n ->
  ((a + 1) * n <= List.length (x r))%nat ->
  reads_block (General.block self a (a + 1)) (x r) (a * n) n.
Proof.
  intros Ho HT Hlen. unfold General.block. rewrite Ho, HT. cbn [getattr bind].
  eexists. split; [reflexivity|]. split.
  - rewrite length_slice by exact Hlen. lia.
  - intros t Ht. unfold var. apply nth_slice. lia.
Qed.

Lemma NM_reported_entries (self : NM.EpexOptimizerNM) (r : OptimizeResult) :
  let n := NM.T self in
  NM.opt self = Some r ->
  List.length (x r) = (4 * n)%nat ->
  List.length (NM.get_charges self) = n /\
  List.length (NM.get_discharges self) = n /\
  forall t, (t < n)%nat ->
    nth t (NM.get_charges self) 0 = py_round (var (x r) (n + t)) 4 /\
    nth t (NM.get_discharges self) 0 = py_round (Qabs (var (x r) t)) 4.
Proof.
  intros n Ho Hlen.
  unfold NM.get_charges, NM.get_discharges. rewrite Ho. fold n.
  rewrite !length_map, !length_slice by lia.
  split; [lia|]. split; [lia|]. intros t Ht. split.
  - rewrite (nth_indep _ 0 (py_round 0 4))
      by (rewrite length_map, length_slice by lia; lia).
    rewrite (map_nth (fun c0 => py_round c0 4)).
    rewrite nth_slice by lia. unfold var. f_equal. f_equal. lia.
  - rewrite (nth_indep _ 0 (py_round (Qabs 0) 4))
      by (rewrite length_map, length_slice by lia; lia).
    rewrite (map_nth (fun dc => py_round (Qabs dc) 4)).
    rewrite nth_slice by lia. reflexivity.
Qed.

(** C10. With a recorded solution of [4 T] entries, the net-metering
    accessors return [T] entries each: [get_charges] the charge entries
    rounded to 4 decimals, [get_discharges] the absolute values of the
    discharge entries rounded to 4 decimals.  So every reported discharge
    is non-negative, every reported flow is within half a unit of the
    fourth decimal of the solver's value, and a reported schedule, and
    the yield computed from it, can differ from the solver's.  The flow
    accessors of the general model return the solver's entries as they
    are. *)
Theorem C10_nm_accessors_round :
  (forall (self : NM.EpexOptimizerNM) (r : OptimizeResult),
     let n := NM.T self in
     NM.opt self = Some r ->
     List.length (x r) = (4 * n)%nat ->
     List.length (NM.get_charges self) = n /\
     List.length (NM.get_discharges self) = n /\
     forall t, (t < n)%nat ->
       nth t (NM.get_charges self) 0 = py_round (var (x r) (n + t)) 4 /\
       nth t (NM.get_discharges self) 0 = py_round (Qabs (var (x r) t)) 4 /\
       0 <= nth t (NM.get_discharges self) 0 /\
       Qabs (nth t (NM.get_charges self) 0 - var (x r) (n + t))
         <= 1 # 20000 /\
       Qabs (nth t (NM.get_discharges self) 0 - Qabs (var (x r) t))
         <= 1 # 20000)
  /\
  (exists (self : NM.EpexOptimizerNM) (r : OptimizeResult),
     NM.opt self = Some r /\
     List.length (x r) = (4 * NM.T self)%nat /\
     ~ (nth 0 (NM.get_charges self) 0 == var (x r) (NM.T self + 0)))
  /\
  (exists (self self' : NM.EpexOptimizerNM) (r : OptimizeResult) (y : Q),
     NM.opt self = Some r /\
     NM.compute_yield self = Ok (y, self') /\
     ~ (y == raw_yield (NM.prices self) (x r)))
  /\
  (forall (self : General.EpexOptimizer) (r : OptimizeResult) (n : nat),
     General.opt self = Some r ->
     General.T self = Some n ->
     List.length (x r) = (8 * n)%nat ->
     reads_block (General.get_grid_discharges self) (x r) (0 * n) n /\
     reads_block (General.get_selfuse_discharges self) (x r) (1 * n) n /\
     reads_block (General.get_grid_charges self) (x r) (2 * n) n /\
     reads_block (General.get_solar_charges self) (x r) (3 * n) n /\
     reads_block (General.get_discharges self) (x r) (4 * n) n /\
     reads_block (General.get_charges self) (x r) (5 * n) n).
Proof.
  split; [|split; [|split]].
  - intros self r n Ho Hlen. subst n.
    destruct (NM_reported_entries self r Ho Hlen) as (Lc & Ld & He).
    split; [exact Lc|]. split; [exact Ld|]. intros t Ht.
    destruct (He t Ht) as (Hc & Hd).
    rewrite Hc, Hd. split; [reflexivity|]. split; [reflexivity|].
    split; [apply py_round_nonneg, Qabs_nonneg|].
    assert (E : (1 # 2) / pow10 4 == 1 # 20000) by reflexivity.
    split; apply Qabs_Qle_condition.
    + pose proof (py_round_near (var (x r) (NM.T self + t)) 4) as H.
      rewrite E in H. split; lra.
    + pose proof (py_round_near (Qabs (var (x r) t)) 4) as H.
      rewrite E in H. split; lra.
  - exists nm_thirds. eexists. split; [reflexivity|].
    split; [reflexivity|]. vm_compute. discriminate.
  - exists nm_trickle_solved. eexists. eexists. eexists.
    split; [reflexivity|]. split; [vm_compute; reflexivity|].
    vm_compute. discriminate.
  - intros self r n Ho HT Hlen.
    unfold General.get_grid_discharges, General.get_selfuse_discharges,
      General.get_grid_charges, General.get_solar_charges,
      General.get_discharges, General.get_charges.
    repeat split;
      match goal with
      | |- reads_block (General.block _ ?a _) _ _ _ =>
          apply (General_block_reads self r n a Ho HT); lia
      end.
Qed.

(** C10 on [nm_thirds]. *)
Lemma C10_nm_accessors_round_witness :
  nth 0 (NM.get_charges nm_thirds) 0 = py_round (1 # 3) 4 /\
  0 <= nth 0 (NM.get_discharges nm_thirds) 0.
Proof.
  destruct (proj1 C10_nm_accessors_round nm_thirds
              {| success := true; x := [1 # 3; 1 # 3; 0; 0];
                 message := EmptyString |} eq_refl eq_refl)
    as (_ & _ & H).
  destruct (H 0%nat ltac:(vm_compute; lia)) as (Hc & _ & Hd & _).
  split; [exact Hc | exact Hd].
Defined.

(** ** Without a recorded solution *)

(** In the net-metering model [T] is assigned by the constructor: without
    a solution every accessor returns [T] zeros and the yield is 0. *)
Lemma NM_unsolved_zeros (self : NM.EpexOptimizerNM) :
  NM.opt self = None ->
  NM.get_charges self = repeat 0 (NM.T self) /\
  NM.get_discharges self = repeat 0 (NM.T self) /\
  NM.get_socs self = Ok (repeat 0 (NM.T self)) /\
  NM.compute_yield self = Ok (0, self).
Proof.
  intros Ho. unfold NM.get_charges, NM.get_discharges, NM.get_socs,
    NM.compute_yield. rewrite Ho.
  assert (E : forall n a, map (fun _ : nat => 0) (seq a n) = repeat 0 n).
  { induction n as [|n IH]; intros a; simpl; [reflexivity|].
    rewrite IH. reflexivity. }
  rewrite E. auto.
Qed.

(** A solve that reports failure records no solution, in both models. *)
Lemma NM_failed_optimize (linprog : lp_problem -> OptimizeResult)
  (self self' : NM.EpexOptimizerNM) (p : lp_problem) (out : list string) :
  NM.problem self = Ok p ->
  success (linprog p) = false ->
  NM.LP_optimize linprog self = Ok (self', out) ->
  NM.opt self' = None /\ NM.T self' = NM.T self.
Proof.
  intros Hp Hs H. unfold NM.LP_optimize in H. rewrite Hp in H.
  cbn [bind] in H. rewrite Hs in H. inversion H; subst. auto.
Qed.

Lemma General_failed_optimize (linprog : lp_problem -> OptimizeResult)
  (self self1 self' : General.EpexOptimizer) (p : lp_problem) :
  General.problem self = Ok (self1, p) ->
  success (linprog p) = false ->
  General.LP_optimize linprog self = Ok self' ->
  General.opt self' = None /\
  General.T self' = Some (List.length (General.prices self)).
Proof.
  intros Hp Hs H. unfold General.LP_optimize in H. rewrite Hp in H.
  cbn [bind] in H. rewrite Hs in H. inversion H; subst.
  apply General_problem_inv in Hp as (-> & _). auto.
Qed.

(** Once [LP_optimize] has assigned [T], the accessors of the general
    model return [T] zeros without a solution. *)
Lemma General_unsolved_zeros (self : General.EpexOptimizer) (n : nat) :
  General.opt self = None ->
  General.T self = Some n ->
  General.get_grid_discharges self = Ok (repeat 0 n) /\
  General.get_selfuse_discharges self = Ok (repeat 0 n) /\
  General.get_grid_charges self = Ok (repeat 0 n) /\
  General.get_solar_charges self = Ok (repeat 0 n) /\
  General.get_charges self = Ok (repeat 0 n) /\
  General.get_discharges self = Ok (repeat 0 n) /\
  General.get_socs self = Ok (repeat 0 n).
Proof.
  intros Ho HT.
  unfold General.get_grid_discharges, General.get_selfuse_discharges,
    General.get_grid_charges, General.get_solar_charges,
    General.get_discharges, General.get_charges, General.get_socs,
    General.block.
  rewrite Ho, HT. cbn [getattr bind].
  assert (E : forall k a, map (fun _ : nat => 0) (seq a k) = repeat 0 k).
  { induction k as [|k IH]; intros a; simpl; [reflexivity|].
    rewrite IH. reflexivity. }
  rewrite E. repeat split.
Qed.

(** C4 fails on the code for the general model before [LP_optimize] has
    run: [__init__] does not assign [self.T], which every accessor and
    [compute_yield] read, so each of them raises [AttributeError] instead
    of returning zeros (the net-metering constructor assigns [T]; see
    [NM_unsolved_zeros]). *)
Theorem C4_general_unoptimized_raises (df : DataFrame.t) (battery : Battery)
  (start_soc end_soc tax_rate tax_per_kwh : Q)
  (allow_grid_discharge allow_grid_charge : bool) (cutoff : Q)
  (interval : string) :
  let self :=
    fst (General.__init__ df battery start_soc end_soc tax_rate tax_per_kwh
           allow_grid_discharge allow_grid_charge cutoff interval) in
  General.opt self = None /\
  General.get_grid_discharges self = Raise (AttributeError "T") /\
  General.get_selfuse_discharges self = Raise (AttributeError "T") /\
  General.get_grid_charges self = Raise (AttributeError "T") /\
  General.get_solar_charges self = Raise (AttributeError "T") /\
  General.get_charges self = Raise (AttributeError "T") /\
  General.get_discharges self = Raise (AttributeError "T") /\
  General.get_socs self = Raise (AttributeError "T") /\
  General.compute_yield self = Raise (AttributeError "T").
Proof.
  intros self.
  destruct (General_init_fields df battery start_soc end_soc tax_rate
              tax_per_kwh allow_grid_discharge allow_grid_charge cutoff
              interval) as (_ & _ & _ & _ & _ & _ & _ & _ & Ho & HT).
  fold self in Ho, HT.
  unfold General.get_grid_discharges, General.get_selfuse_discharges,
    General.get_grid_charges, General.get_solar_charges,
    General.get_discharges, General.get_charges, General.get_socs,
    General.compute_yield, General.block.
  rewrite Ho, HT. repeat split.
Qed.

(** ** Horizon chaining *)

(** C5 fails on the code: the class documents [set_socs] and the example
    script calls it, but the class body defines no such method, so the
    call raises [AttributeError]. *)
Theorem C5_set_socs_missing :
  ~ In "set_socs"%string NM.methods /\
  NM.lookup "set_socs" = Raise (AttributeError "set_socs") /\
  NM.lookup "LP_optimize" = Ok "LP_optimize"%string.
Proof.
  split; [|split; reflexivity].
  intros H. repeat (destruct H as [H|H]; [discriminate|]). exact H.
Qed.

(** ** The interval selector *)

Lemma General_invalid_interval (df : DataFrame.t) (battery : Battery)
  (start_soc end_soc tax_rate tax_per_kwh : Q) (agd agc : bool) (cutoff : Q)
  (interval : string) :
  interval <> "hour"%string ->
  interval <> "quarter"%string ->
  let r := General.__init__ df battery start_soc end_soc tax_rate
             tax_per_kwh agd agc cutoff interval in
  snd r = [General.invalid_interval_message interval] /\
  General.interval_fraction (fst r) = None.
Proof.
  intros Hh Hq. unfold General.__init__.
  apply String.eqb_neq in Hh, Hq. rewrite Hh, Hq. split; reflexivity.
Qed.

(** C6 fails on the code: for the selector ["day"] the constructor prints
    its message, which announces the fallback to the hour, but leaves
    [self.interval_fraction] unassigned; [LP_optimize] then raises
    [AttributeError] where the inequality rows read it, whatever the
    solver is, while the same instance built with ["hour"] solves. *)
Theorem C6_invalid_interval_raises (linprog : lp_problem -> OptimizeResult) :
  snd general_day = [General.invalid_interval_message "day"] /\
  General.interval_fraction (fst general_day) = None /\
  General.interval_fraction (fst general_hour) = Some 1 /\
  General.LP_optimize linprog (fst general_day)
  = Raise (AttributeError "interval_fraction") /\
  exists self', General.LP_optimize linprog (fst general_hour) = Ok self'.
Proof.
  split; [reflexivity|]. split; [reflexivity|]. split; [reflexivity|].
  split.
  - unfold General.LP_optimize.
    replace (General.problem (fst general_day))
      with (@Raise (General.EpexOptimizer * lp_problem)
              (AttributeError "interval_fraction"))
      by (vm_compute; reflexivity).
    reflexivity.
  - unfold General.LP_optimize.
    destruct (General.problem (fst general_hour)) as [[s p]|e] eqn:E;
      [|vm_compute in E; discriminate].
    cbn [bind]. destruct (negb (success (linprog p))); eexists; reflexivity.
Qed.

(** ** Ingestion of NaN *)

(** C8, as the specification states it, fails: a NaN price is kept by both
    constructors, reaches the taxed price and reaches the objective. *)
Lemma C8_counterexample :
  ~ Ingest.no_nan (Ingest.prices Ingest.nan_price_period) /\
  Ingest.prices Ingest.nan_price_period = [Ingest.NaN] /\
  Ingest.prices_tax Ingest.nan_price_period = [Ingest.NaN] /\
  In Ingest.NaN (Ingest.objective Ingest.nan_price_period 0 1) /\
  ~ Ingest.no_nan (Ingest.NM_prices [Ingest.NaN]) /\
  In Ingest.NaN (Ingest.NM_objective (Ingest.NM_prices [Ingest.NaN]) 0).
Proof.
  repeat split.
  - intros H. inversion H as [|a l Ha Hl]. discriminate.
  - left. reflexivity.
  - intros H. inversion H as [|a l Ha Hl]. discriminate.
  - left. reflexivity.
Qed.

(** C8, amended. The general model replaces every NaN of the usage and of
    the feed-in column by 0, keeps their other entries and their length,
    so that no NaN of these two columns reaches the constraints.  Neither
    model replaces a NaN price: the general model keeps the price column
    as it is and the net-metering model keeps the price list as it is. *)
Theorem C8_set_period_sanitizes (df : Ingest.RawFrame.t)
  (tax_rate tax_per_kwh : Q) :
  let p := Ingest._set_period df tax_rate tax_per_kwh in
  Ingest.no_nan (Ingest.electricity_use p) /\
  Ingest.no_nan (Ingest.electricity_feedin p) /\
  Ingest.electricity_use p
  = map (fun r => match Ingest.RawFrame.electricity_usage r with
                  | Ingest.NaN => Ingest.Fin 0
                  | Ingest.Fin q => Ingest.Fin q
                  end) df /\
  Ingest.electricity_feedin p
  = map (fun r => match Ingest.RawFrame.electricity_feedin r with
                  | Ingest.NaN => Ingest.Fin 0
                  | Ingest.Fin q => Ingest.Fin q
                  end) df /\
  Ingest.prices p = map Ingest.RawFrame.price_euro_per_kwh df /\
  forall prices, Ingest.NM_prices prices = prices.
Proof.
  cbv zeta. unfold Ingest._set_period, Ingest.no_nan. cbn.
  repeat split.
  - rewrite map_map. apply Forall_map, Forall_forall. intros r _.
    destruct (Ingest.RawFrame.electricity_usage r); reflexivity.
  - rewrite map_map. apply Forall_map, Forall_forall. intros r _.
    destruct (Ingest.RawFrame.electricity_feedin r); reflexivity.
  - rewrite map_map. apply map_ext. intros r.
    destruct (Ingest.RawFrame.electricity_usage r); reflexivity.
  - rewrite map_map. apply map_ext. intros r.
    destruct (Ingest.RawFrame.electricity_feedin r); reflexivity.
Qed.

(** A period whose usage and feed-in are both missing is ingested with a
    usage and a feed-in of 0, at the price given. *)
Lemma nan_load_sanitized :
  Ingest.electricity_use (Ingest._set_period Ingest.df_nan_load 0 0)
  = [Ingest.Fin 0] /\
  Ingest.electricity_feedin (Ingest._set_period Ingest.df_nan_load 0 0)
  = [Ingest.Fin 0] /\
  Ingest.prices (Ingest._set_period Ingest.df_nan_load 0 0)
  = [Ingest.Fin (1 # 10)].
Proof. repeat split. Qed.

(** On a data frame without NaN, [_set_period] assigns the attributes that
    the constructor of the general model above assigns. *)
Lemma Ingest_agrees_on_finite (df : DataFrame.t) (battery : Battery)
  (start_soc end_soc tax_rate tax_per_kwh : Q) (agd agc : bool) (cutoff : Q)
  (interval : string) :
  let self :=
    fst (General.__init__ df battery start_soc end_soc tax_rate tax_per_kwh
           agd agc cutoff interval) in
  let p := Ingest._set_period (map Ingest.lift_row df) tax_rate tax_per_kwh in
  Ingest.electricity_use p = map Ingest.Fin (General.electricity_use self) /\
  Ingest.electricity_feedin p
  = map Ingest.Fin (General.electricity_feedin self) /\
  Ingest.prices p = map Ingest.Fin (General.prices self) /\
  Ingest.prices_tax p = map Ingest.Fin (General.prices_tax self).
Proof.
  intros self p.
  destruct (General_init_fields df battery start_soc end_soc tax_rate
              tax_per_kwh agd agc cutoff interval)
    as (_ & _ & _ & _ & Hp & Hpt & Hu & Hf & _).
  fold self in Hp, Hpt, Hu, Hf. rewrite Hp, Hpt, Hu, Hf.
  unfold p, Ingest._set_period. cbn.
  rewrite !map_map. repeat split; apply map_ext; intros r; reflexivity.
Qed.

(** ** Sums over the horizon *)

Lemma sum_upto_ext (n : nat) (f g : nat -> Q) :
  (forall t, (t < n)%nat -> f t == g t) -> sum_upto n f == sum_upto n g.
Proof.
  induction n as [|n IH]; intros H; simpl; [reflexivity|].
  rewrite IH by (intros t Ht; apply H; lia). rewrite (H n) by lia.
  reflexivity.
Qed.

Lemma sum_upto_le (n : nat) (f g : nat -> Q) :
  (forall t, (t < n)%nat -> f t <= g t) -> sum_upto n f <= sum_upto n g.
Proof.
  induction n as [|n IH]; intros H; simpl; [lra|].
  assert (sum_upto n f <= sum_upto n g) by (apply IH; intros t Ht; apply H; lia).
  assert (f n <= g n) by (apply H; lia). lra.
Qed.

Lemma sum_upto_plus (n : nat) (f g : nat -> Q) :
  sum_upto n (fun t => f t + g t) == sum_upto n f + sum_upto n g.
Proof. induction n as [|n IH]; simpl; [ring|]. rewrite IH. ring. Qed.

Lemma sum_upto_opp (n : nat) (f : nat -> Q) :
  sum_upto n (fun t => - f t) == - sum_upto n f.
Proof. induction n as [|n IH]; simpl; [ring|]. rewrite IH. ring. Qed.

Lemma sum_upto_scale (n : nat) (a : Q) (f : nat -> Q) :
  sum_upto n (fun t => a * f t) == a * sum_upto n f.
Proof. induction n as [|n IH]; simpl; [ring|]. rewrite IH. ring. Qed.

Lemma sum_upto_zero (n : nat) : sum_upto n (fun _ => 0) == 0.
Proof. induction n as [|n IH]; simpl; [reflexivity|]. rewrite IH. ring. Qed.

Lemma sum_upto_app (a b : nat) (f : nat -> Q) :
  sum_upto (a + b) f == sum_upto a f + sum_upto b (fun t => f (a + t)%nat).
Proof.
  induction b as [|b IH]; simpl.
  - rewrite Nat.add_0_r. ring.
  - rewrite Nat.add_succ_r. simpl. rewrite IH. ring.
Qed.

Lemma sum_upto_shift (n : nat) (f : nat -> Q) :
  sum_upto (S n) f == f 0%nat + sum_upto n (fun t => f (S t)).
Proof.
  change (S n) with (1 + n)%nat. rewrite sum_upto_app. simpl. ring.
Qed.

Lemma dot_sum (l v : list Q) :
  dot l v == sum_upto (List.length l) (fun t => nth t l 0 * nth t v 0).
Proof.
  revert v; induction l as [|a l IH]; intros v.
  - destruct v; reflexivity.
  - cbn [List.length]. rewrite sum_upto_shift. destruct v as [|b v].
    + simpl. rewrite (sum_upto_ext _ _ (fun _ => 0)).
      * rewrite sum_upto_zero. ring.
      * intros t _. destruct t; ring.
    + simpl. rewrite IH. reflexivity.
Qed.

(** ** The value of the net-metering objective *)

(** The value the solver minimises is the negated raw yield plus the
    penalty rate times the energy discharged. *)
Lemma NM_objective_value (prices : list Q) (battery : Battery)
  (start_soc end_soc cutoff : Q) (p : lp_problem) (v : list Q) :
  NM.problem (NM.__init__ prices battery start_soc end_soc cutoff) = Ok p ->
  dot (c p) v
  == - raw_yield prices v
     + cutoff_rate battery cutoff * total_discharge (List.length prices) v.
Proof.
  intros Hp.
  destruct (NM_objective_coefficients prices battery start_soc end_soc cutoff p Hp)
    as (Hlen & Hc).
  set (n := List.length prices) in *.
  rewrite dot_sum, Hlen.
  replace (4 * n)%nat with (n + (n + (n + n)))%nat by lia.
  rewrite !sum_upto_app.
  unfold raw_yield, total_discharge. fold n.
  rewrite (sum_upto_ext n _
             (fun t => (- nth t prices 0 + cutoff_rate battery cutoff)
                       * var v t)).
  2:{ intros t Ht. destruct (Hc t Ht) as (H1 & _). unfold var in *.
      rewrite H1. reflexivity. }
  rewrite (sum_upto_ext n (fun t => nth (n + t) (c p) 0 * nth (n + t) v 0)
             (fun t => nth t prices 0 * var v (n + t))).
  2:{ intros t Ht. destruct (Hc t Ht) as (_ & H2 & _). unfold var in *.
      rewrite H2. reflexivity. }
  rewrite (sum_upto_ext n
             (fun t => nth (n + (n + t)) (c p) 0 * nth (n + (n + t)) v 0)
             (fun _ => 0)).
  2:{ intros t Ht. destruct (Hc t Ht) as (_ & _ & H3 & _). unfold var in *.
      replace (n + (n + t))%nat with (2 * n + t)%nat by lia.
      rewrite H3. ring. }
  rewrite (sum_upto_ext n
             (fun t => nth (n + (n + (n + t))) (c p) 0
                       * nth (n + (n + (n + t))) v 0)
             (fun _ => 0)).
  2:{ intros t Ht. destruct (Hc t Ht) as (_ & _ & _ & H4). unfold var in *.
      replace (n + (n + (n + t)))%nat with (3 * n + t)%nat by lia.
      rewrite H4. ring. }
  rewrite sum_upto_zero.
  assert (E : - sum_upto n
                  (fun t => nth t prices 0 * (var v t - var v (n + t)))
              + cutoff_rate battery cutoff * sum_upto n (fun t => var v t)
              == sum_upto n
                   (fun t => (- nth t prices 0 + cutoff_rate battery cutoff)
                             * var v t)
                 + sum_upto n (fun t => nth t prices 0 * var v (n + t))).
  { rewrite <- sum_upto_opp, <- sum_upto_scale, <- !sum_upto_plus.
    apply sum_upto_ext. intros t _. ring. }
  rewrite E. ring.
Qed.

(** ** Yield against cutoff *)

(** The cutoff enters the objective only: the feasible vectors of two
    instances that differ in their cutoff are the same. *)
Lemma NM_feasible_any_cutoff (prices : list Q) (battery : Battery)
  (start_soc end_soc c1 c2 : Q) (p1 p2 : lp_problem) (v : list Q) :
  NM.problem (NM.__init__ prices battery start_soc end_soc c1) = Ok p1 ->
  NM.problem (NM.__init__ prices battery start_soc end_soc c2) = Ok p2 ->
  feasible p1 v -> feasible p2 v.
Proof.
  intros H1 H2 (Hlen & Hub & Heq & Hpos & Hint).
  destruct (NM_objective_coefficients _ _ _ _ _ _ H1) as (L1 & _).
  destruct (NM_objective_coefficients _ _ _ _ _ _ H2) as (L2 & _).
  apply NM_problem_inv in H1 as (_ & Hi1 & He1 & Hg1).
  apply NM_problem_inv in H2 as (_ & Hi2 & He2 & Hg2).
  change (NM._create_ineqality_constraints
            (NM.__init__ prices battery start_soc end_soc c2))
    with (NM._create_ineqality_constraints
            (NM.__init__ prices battery start_soc end_soc c1)) in Hi2.
  change (NM._create_equality_constraints
            (NM.__init__ prices battery start_soc end_soc c2))
    with (NM._create_equality_constraints
            (NM.__init__ prices battery start_soc end_soc c1)) in He2.
  rewrite Hi1 in Hi2. rewrite He1 in He2.
  inversion Hi2 as [[Ha Hb]]. inversion He2 as [[Hc Hd]].
  unfold feasible. rewrite <- Ha, <- Hb, <- Hc, <- Hd, Hg2.
  cbn [NM.__init__ NM.T] in Hg1 |- *. rewrite <- Hg1.
  repeat split; try assumption. congruence.
Qed.

(** The exchange argument: each of two optimal solutions is feasible for
    the other problem, and the two optimality inequalities add up. *)
Lemma exchange (Y1 Y2 D1 D2 r1 r2 : Q) :
  0 <= r1 -> r1 < r2 ->
  - Y1 + r1 * D1 <= - Y2 + r1 * D2 ->
  - Y2 + r2 * D2 <= - Y1 + r2 * D1 ->
  Y2 <= Y1 /\ D2 <= D1.
Proof.
  intros H0 Hr Ha Hb.
  assert (Hd : D2 <= D1).
  { apply Qnot_lt_le. intros Hlt.
    assert (0 < (r2 - r1) * (D2 - D1))
      by (apply Qmult_lt_0_compat; lra).
    lra. }
  split; [|exact Hd].
  assert (0 <= r1 * (D1 - D2)) by (apply Qmult_le_0_compat; lra).
  lra.
Qed.

Lemma NM_raw_yield_monotone (prices : list Q) (battery : Battery)
  (start_soc end_soc c1 c2 : Q) (p1 p2 : lp_problem) (v1 v2 : list Q) :
  NM.problem (NM.__init__ prices battery start_soc end_soc c1) = Ok p1 ->
  NM.problem (NM.__init__ prices battery start_soc end_soc c2) = Ok p2 ->
  optimal p1 v1 ->
  optimal p2 v2 ->
  0 < effective_capacity battery * efficiency battery ->
  0 <= c1 -> c1 < c2 ->
  raw_yield prices v2 <= raw_yield prices v1.
Proof.
  intros H1 H2 [F1 O1] [F2 O2] HE H0 Hc.
  pose proof (O1 v2 (NM_feasible_any_cutoff _ _ _ _ _ _ _ _ _ H2 H1 F2)) as A.
  pose proof (O2 v1 (NM_feasible_any_cutoff _ _ _ _ _ _ _ _ _ H1 H2 F1)) as B.
  rewrite !(NM_objective_value _ _ _ _ _ _ _ H1) in A.
  rewrite !(NM_objective_value _ _ _ _ _ _ _ H2) in B.
  refine (proj1 (exchange _ _ _ _ (cutoff_rate battery c1)
                   (cutoff_rate battery c2) _ _ A B)).
  - unfold cutoff_rate. apply Qle_shift_div_l; [exact HE|]. lra.
  - unfold cutoff_rate. apply Qlt_shift_div_l; [exact HE|].
    unfold Qdiv. rewrite <- Qmult_assoc, (Qmult_comm (/ _)).
    rewrite Qmult_inv_r by lra. lra.
Qed.

(** ** The yield that [compute_yield] returns *)

Lemma for_each_app {S : Type} (l1 l2 : list nat)
  (body : nat -> S -> result S) (s : S) :
  for_each (l1 ++ l2) body s = s' <- for_each l1 body s ;; for_each l2 body s'.
Proof.
  revert s; induction l1 as [|i l1 IH]; intros s; simpl; [reflexivity|].
  destruct (body i s) as [s'|e]; simpl; [apply IH | reflexivity].
Qed.

(** A loop that adds one term per period returns their sum. *)
Lemma for_range_sum (n : nat) (body : nat -> Q -> result Q) (g : nat -> Q) :
  (forall i y, (i < n)%nat -> body i y = Ok (y + g i)) ->
  for_range n body 0 = Ok (sum_upto n g).
Proof.
  unfold for_range. induction n as [|n IH]; intros H; [reflexivity|].
  rewrite seq_S, for_each_app, IH by (intros i y Hi; apply H; lia).
  simpl. rewrite H by lia. reflexivity.
Qed.

Lemma NM_compute_yield_value (self : NM.EpexOptimizerNM)
  (r : OptimizeResult) :
  NM.opt self = Some r ->
  NM.T self = List.length (NM.prices self) ->
  List.length (x r) = (4 * NM.T self)%nat ->
  (1 <= NM.T self)%nat ->
  NM.compute_yield self
  = Ok (reported_yield (NM.prices self) (x r),
        NM.set_yield self (reported_yield (NM.prices self) (x r))).
Proof.
  intros Ho HT Hlen H1.
  destruct (NM_reported_entries self r Ho Hlen) as (Lc & Ld & He).
  unfold NM.compute_yield. rewrite Ho.
  assert (Hs : exists socs, NM.get_socs self = Ok socs).
  { unfold NM.get_socs. rewrite Ho. eexists. apply setitem_ok.
    rewrite length_slice by lia. lia. }
  destruct Hs as [socs ->]. cbn [bind].
  rewrite (for_range_sum (NM.T self) _
             (fun t =>
                py_round (Qabs (var (x r) t)) 4 * nth t (NM.prices self) 0
                - py_round (var (x r) (NM.T self + t)) 4
                  * nth t (NM.prices self) 0)).
  - cbn [bind]. unfold reported_yield. rewrite <- HT. reflexivity.
  - intros i y Hi. destruct (He i Hi) as (Hc & Hd).
    rewrite (getitem_ok (NM.get_discharges self) i 0) by lia.
    rewrite (getitem_ok (NM.prices self) i 0) by lia.
    rewrite (getitem_ok (NM.get_charges self) i 0) by lia.
    cbn [bind]. rewrite Hc, Hd. reflexivity.
Qed.

(** Rounding moves the yield by at most a ten-thousandth of the sum of the
    absolute prices. *)
Lemma reported_yield_near (prices v : list Q) :
  Forall (fun a => 0 <= a) v ->
  - ((1 # 10000) * price_mass prices)
  <= reported_yield prices v - raw_yield prices v
  <= (1 # 10000) * price_mass prices.
Proof.
  intros Hpos. unfold reported_yield, raw_yield, price_mass.
  set (n := List.length prices).
  assert (Hnn : forall j, 0 <= var v j).
  { intros j. unfold var. destruct (Nat.ltb_spec j (List.length v)) as [Hj|Hj].
    - apply (proj1 (Forall_forall _ v) Hpos). apply nth_In. exact Hj.
    - rewrite nth_overflow by exact Hj. lra. }
  assert (E : (1 # 2) / pow10 4 == 1 # 20000) by reflexivity.
  assert (Hterm : forall t,
    - ((1 # 10000) * Qabs (nth t prices 0))
    <= (py_round (Qabs (var v t)) 4 * nth t prices 0
        - py_round (var v (n + t)) 4 * nth t prices 0)
       - nth t prices 0 * (var v t - var v (n + t))
    <= (1 # 10000) * Qabs (nth t prices 0)).
  { intros t.
    pose proof (py_round_near (Qabs (var v t)) 4) as [A1 A2].
    pose proof (py_round_near (var v (n + t)) 4) as [B1 B2].
    rewrite E in A1, A2, B1, B2.
    pose proof (Qabs_pos _ (Hnn t)) as Ha.
    remember (py_round (Qabs (var v t)) 4 - var v t
              - (py_round (var v (n + t)) 4 - var v (n + t))) as e eqn:He.
    assert (Hb : - (1 # 10000) <= e /\ e <= 1 # 10000)
      by (subst e; split; lra).
    setoid_replace
      (py_round (Qabs (var v t)) 4 * nth t prices 0
       - py_round (var v (n + t)) 4 * nth t prices 0
       - nth t prices 0 * (var v t - var v (n + t)))
      with (nth t prices 0 * e) by (subst e; ring).
    clear He A1 A2 B1 B2 Ha. destruct Hb as [Hb1 Hb2].
    set (q := nth t prices 0).
    apply (Qabs_case q); intros Hq.
    - assert (0 <= q * ((1 # 10000) - e))
        by (apply Qmult_le_0_compat; lra).
      assert (0 <= q * ((1 # 10000) + e))
        by (apply Qmult_le_0_compat; lra).
      split; lra.
    - assert (0 <= (- q) * ((1 # 10000) - e))
        by (apply Qmult_le_0_compat; lra).
      assert (0 <= (- q) * ((1 # 10000) + e))
        by (apply Qmult_le_0_compat; lra).
      split; lra. }
  rewrite <- !sum_upto_scale.
  assert (D : sum_upto n
                (fun t =>
                   py_round (Qabs (var v t)) 4 * nth t prices 0
                   - py_round (var v (n + t)) 4 * nth t prices 0)
              - sum_upto n
                  (fun t => nth t prices 0 * (var v t - var v (n + t)))
              == sum_upto n
                   (fun t =>
                      (py_round (Qabs (var v t)) 4 * nth t prices 0
                       - py_round (var v (n + t)) 4 * nth t prices 0)
                      + - (nth t prices 0 * (var v t - var v (n + t))))).
  { rewrite sum_upto_plus, sum_upto_opp. ring. }
  rewrite D. split.
  - rewrite <- sum_upto_opp. apply sum_upto_le. intros t _.
    destruct (Hterm t). lra.
  - apply sum_upto_le. intros t _. destruct (Hterm t). lra.
Qed.

Lemma nonneg_entries (v : list Q) :
  Forall (fun a => 0 <= a) v -> forall j, 0 <= var v j.
Proof.
  intros Hpos j. unfold var.
  destruct (Nat.ltb_spec j (List.length v)) as [Hj|Hj].
  - apply (proj1 (Forall_forall _ v) Hpos). apply nth_In. exact Hj.
  - rewrite nth_overflow by exact Hj. lra.
Qed.

(** What feasibility means for the flows of the net-metering model: the
    solver's bounds and integrality turn the flag into 0 or 1, so that one
    of the two flows of a period is zero. *)
Lemma NM_feasible_meaning (prices : list Q) (battery : Battery)
  (start_soc end_soc cutoff : Q) (p : lp_problem) (w : list Q) :
  let n := List.length prices in
  NM.problem (NM.__init__ prices battery start_soc end_soc cutoff) = Ok p ->
  feasible p w ->
  List.length w = (4 * n)%nat /\
  (forall j, 0 <= var w j) /\
  forall t, (t < n)%nat ->
    var w t <= max_discharge_power battery /\
    var w (n + t) <= max_charge_power battery /\
    var w (2 * n + t) <= max_soc battery /\
    min_soc battery <= var w (2 * n + t) /\
    (var w t == 0 \/ var w (n + t) == 0).
Proof.
  intros n Hp (Hlen & Hub & _ & Hpos & Hint).
  destruct (NM_objective_coefficients _ _ _ _ _ _ Hp) as (Lc & _).
  apply NM_problem_inv in Hp as (_ & Hineq & _ & Hmask).
  pose proof (nonneg_entries w Hpos) as Hnn.
  split; [rewrite Hlen; exact Lc|]. split; [exact Hnn|]. intros t Ht.
  destruct (NM_ineq_meaning _ _ _ _ Hineq Hub t Ht)
    as (H1 & H2 & H3 & H4 & H5 & H6).
  cbn [NM.__init__ NM.T NM.battery NM.M] in *. fold n in H1, H2, H3, H4, H5, H6.
  repeat (split; [assumption|]).
  assert (Hz : is_integer (var w (3 * n + t))).
  { apply Hint. rewrite Hmask. fold n.
    rewrite nth_app_at by apply length_rep. rewrite nth_rep.
    destruct (Nat.ltb_spec t n); [reflexivity | lia]. }
  destruct Hz as [k Hk].
  pose proof (Hnn t) as Hx. pose proof (Hnn (n + t)%nat) as Hy.
  pose proof (Hnn (3 * n + t)%nat) as Hz0.
  rewrite Hk in H5, H6, Hz0.
  assert (Hk01 : (0 <= k <= 1)%Z).
  { split; rewrite Zle_Qle.
    - exact Hz0.
    - change (inject_Z 1) with 1. lra. }
  assert (Hcase : k = 0%Z \/ k = 1%Z) by lia.
  destruct Hcase as [-> | ->].
  - right. change (inject_Z 0) with 0 in H6. lra.
  - left. change (inject_Z 1) with 1 in H5. lra.
Qed.

(** The yield that the run of the example script reports for a successful
    solve. *)
Lemma NM_yield_value (linprog : lp_problem -> OptimizeResult)
  (prices : list Q) (battery : Battery) (start_soc end_soc cutoff : Q)
  (p : lp_problem) (y : Q) :
  NM.problem (NM.__init__ prices battery start_soc end_soc cutoff) = Ok p ->
  success (linprog p) = true ->
  List.length (x (linprog p)) = (4 * List.length prices)%nat ->
  NM_yield linprog prices battery start_soc end_soc cutoff = Ok y ->
  y = reported_yield prices (x (linprog p)).
Proof.
  intros Hp Hs Hlen Hy. unfold NM_yield, NM.LP_optimize in Hy.
  rewrite Hp in Hy. cbn [bind] in Hy. rewrite Hs in Hy. cbn [bind negb] in Hy.
  destruct prices as [|a l].
  - cbn in Hy. discriminate.
  - rewrite (NM_compute_yield_value _ (linprog p)) in Hy;
      [| reflexivity | reflexivity | exact Hlen | cbn; lia].
    cbn [bind] in Hy. inversion Hy. reflexivity.
Qed.

(** *** Two-period instances

    The optimal solutions of the example instances, by hand: what
    feasibility means for a vector [w] of two periods, then linear
    arithmetic. *)

Ltac closed_inverses :=
  repeat match goal with
  | H : context [Qinv ?q] |- _ =>
      let q' := eval vm_compute in (Qinv q) in
      change (Qinv q) with q' in H
  | |- context [Qinv ?q] =>
      let q' := eval vm_compute in (Qinv q) in
      change (Qinv q) with q'
  end.

(** The facts about a feasible [w] of a two-period problem [Hp], and the
    two objective values of the goal. *)
Ltac two_periods Hp Hw :=
  rewrite !(NM_objective_value _ _ _ _ _ _ _ Hp);
  let Hnn := fresh "Hnn" in
  let Hb := fresh "Hb" in
  let He := fresh "He" in
  let Hsat := fresh "Hsat" in
  destruct (NM_feasible_meaning _ _ _ _ _ _ _ Hp Hw) as (_ & Hnn & Hb);
  destruct (Hb 0%nat ltac:(cbn; lia)) as (? & ? & ? & ? & ?);
  destruct (Hb 1%nat ltac:(cbn; lia)) as (? & ? & ? & ? & ?);
  pose proof (NM_problem_inv _ _ Hp) as (_ & _ & He & _);
  destruct Hw as (_ & _ & Hsat & _);
  destruct (NM_eq_meaning _ _ _ _ He Hsat ltac:(cbn; lia)) as (? & _ & ?);
  pose proof (Hnn 0%nat); pose proof (Hnn 1%nat);
  pose proof (Hnn 2%nat); pose proof (Hnn 3%nat);
  clear Hb Hnn He Hsat Hp;
  unfold raw_yield, total_discharge, cutoff_rate, effective_capacity,
    nm_cycle, nm_idle, trickle_cycle, lossy_cycle, unit_battery,
    trickle_battery, lossy_battery in *;
  cbn [NM.__init__ NM.T NM.battery NM.start_soc NM.end_soc List.length
       Nat.add Nat.mul Nat.sub sum_upto nth var max_discharge_power
       max_charge_power max_soc min_soc battery_size efficiency] in *;
  unfold Qdiv in *; closed_inverses.

(** A concrete vector is feasible for the problem [Hp] of two periods. *)
Ltac concrete_feasible Hp :=
  vm_compute in Hp; inversion Hp; subst; clear Hp;
  unfold feasible; cbn [c A_ub b_ub A_eq b_eq integrality];
  split; [reflexivity|];
  split; [apply sat_ub_b_sound; vm_compute; reflexivity|];
  split; [apply sat_eq_b_sound; vm_compute; reflexivity|];
  split; [repeat constructor; vm_compute; discriminate|];
  let j := fresh "j" in
  let Hj := fresh "Hj" in
  intros j Hj;
  do 8 (destruct j as [|j];
        [first [ exfalso; vm_compute in Hj; discriminate
               | exists 0%Z; vm_compute; reflexivity
               | exists 1%Z; vm_compute; reflexivity ]|]);
  exfalso; destruct j; vm_compute in Hj; discriminate.

Lemma trickle_cycle_optimal (p : lp_problem) :
  NM.problem (NM.__init__ [1; 3] trickle_battery 0 0 0) = Ok p ->
  optimal p trickle_cycle.
Proof.
  intros Hp. split.
  - concrete_feasible Hp.
  - intros w Hw. two_periods Hp Hw. lra.
Qed.

Lemma trickle_idle_optimal (p : lp_problem) :
  NM.problem (NM.__init__ [1; 3] trickle_battery 0 0 10) = Ok p ->
  optimal p nm_idle.
Proof.
  intros Hp. split.
  - concrete_feasible Hp.
  - intros w Hw. two_periods Hp Hw. lra.
Qed.

Lemma lossy_cycle_optimal (p : lp_problem) :
  NM.problem (NM.__init__ [1; 1] lossy_battery 0 0 (- (1))) = Ok p ->
  optimal p lossy_cycle.
Proof.
  intros Hp. split.
  - concrete_feasible Hp.
  - intros w Hw. two_periods Hp Hw.
    repeat match goal with
    | H : _ \/ _ |- _ => destruct H
    end; lra.
Qed.

Lemma lossy_idle_optimal (p : lp_problem) :
  NM.problem (NM.__init__ [1; 1] lossy_battery 0 0 0) = Ok p ->
  optimal p nm_idle.
Proof.
  intros Hp. split.
  - concrete_feasible Hp.
  - intros w Hw. two_periods Hp Hw. lra.
Qed.

Lemma unit_cycle_optimal (p : lp_problem) :
  NM.problem (NM.__init__ [1; 2] unit_battery 0 0 0) = Ok p ->
  optimal p nm_cycle.
Proof.
  intros Hp. split.
  - concrete_feasible Hp.
  - intros w Hw. two_periods Hp Hw. lra.
Qed.

Lemma unit_idle_optimal (p : lp_problem) :
  NM.problem (NM.__init__ [1; 2] unit_battery 0 0 2) = Ok p ->
  optimal p nm_idle.
Proof.
  intros Hp. split.
  - concrete_feasible Hp.
  - intros w Hw. two_periods Hp Hw. lra.
Qed.

(** C7, as the specification states it, fails in two ways.

    Rounding: with the prices 1 and 3 and [trickle_battery], the optimal
    solution for cutoff 0 charges 0.00006 kWh and discharges 0.00003 kWh,
    which [compute_yield] rounds to 0.0001 and 0: the reported yield is
    -0.0001.  For cutoff 10 the optimal solution is idle and the reported
    yield is 0, which is more.

    Negative cutoffs: with the prices 1 and 1 and [lossy_battery], cutoff
    -1 rewards discharging and the optimal solution cycles at a loss of
    0.5; for cutoff 0 the optimal solution is idle with yield 0. *)
Lemma C7_counterexample :
  (exists p1 p2 y1 y2,
     let solver := table_solver 0 trickle_cycle nm_idle in
     NM.problem (NM.__init__ [1; 3] trickle_battery 0 0 0) = Ok p1 /\
     NM.problem (NM.__init__ [1; 3] trickle_battery 0 0 10) = Ok p2 /\
     success (solver p1) = true /\ optimal p1 (x (solver p1)) /\
     success (solver p2) = true /\ optimal p2 (x (solver p2)) /\
     0 <= 10 /\
     NM_yield solver [1; 3] trickle_battery 0 0 0 = Ok y1 /\
     NM_yield solver [1; 3] trickle_battery 0 0 10 = Ok y2 /\
     y1 == - (1 # 10000) /\ y2 == 0 /\ ~ (y2 <= y1))
  /\
  (exists p1 p2 y1 y2,
     let solver := table_solver (- (2)) lossy_cycle nm_idle in
     NM.problem (NM.__init__ [1; 1] lossy_battery 0 0 (- (1))) = Ok p1 /\
     NM.problem (NM.__init__ [1; 1] lossy_battery 0 0 0) = Ok p2 /\
     success (solver p1) = true /\ optimal p1 (x (solver p1)) /\
     success (solver p2) = true /\ optimal p2 (x (solver p2)) /\
     - (1) <= 0 /\
     NM_yield solver [1; 1] lossy_battery 0 0 (- (1)) = Ok y1 /\
     NM_yield solver [1; 1] lossy_battery 0 0 0 = Ok y2 /\
     y1 == - (1 # 2) /\ y2 == 0 /\ ~ (y2 <= y1)).
Proof.
  split.
  - eexists. eexists. eexists. eexists. cbv zeta.
    split; [vm_compute; reflexivity|]. split; [vm_compute; reflexivity|].
    split; [reflexivity|].
    split; [apply trickle_cycle_optimal; vm_compute; reflexivity|].
    split; [reflexivity|].
    split; [apply trickle_idle_optimal; vm_compute; reflexivity|].
    split; [vm_compute; discriminate|].
    split; [vm_compute; reflexivity|]. split; [vm_compute; reflexivity|].
    split; [vm_compute; reflexivity|]. split; [vm_compute; reflexivity|].
    intros H. vm_compute in H. apply H. reflexivity.
  - eexists. eexists. eexists. eexists. cbv zeta.
    split; [vm_compute; reflexivity|]. split; [vm_compute; reflexivity|].
    split; [reflexivity|].
    split; [apply lossy_cycle_optimal; vm_compute; reflexivity|].
    split; [reflexivity|].
    split; [apply lossy_idle_optimal; vm_compute; reflexivity|].
    split; [vm_compute; discriminate|].
    split; [vm_compute; reflexivity|]. split; [vm_compute; reflexivity|].
    split; [vm_compute; reflexivity|]. split; [vm_compute; reflexivity|].
    intros H. vm_compute in H. apply H. reflexivity.
Qed.

(** C7, amended. For the net-metering model with fixed prices, battery,
    [start_soc] and [end_soc], a battery whose effective capacity times
    efficiency is positive, a solver that returns optimal solutions, and
    cutoffs [0 <= c1 <= c2]: the yield of the solver's own solution,
    [sum of price_t * (discharge_t - charge_t)], does not increase from
    [c1] to [c2]; and the yield that [compute_yield] reports, from flows
    rounded to 4 decimals, does not increase by more than the rounding:
    [yield c2 <= yield c1 + 0.0002 * sum of |price_t|]. *)
Theorem C7_yield_monotone (linprog : lp_problem -> OptimizeResult)
  (prices : list Q) (battery : Battery) (start_soc end_soc c1 c2 : Q)
  (p1 p2 : lp_problem) (y1 y2 : Q) :
  NM.problem (NM.__init__ prices battery start_soc end_soc c1) = Ok p1 ->
  NM.problem (NM.__init__ prices battery start_soc end_soc c2) = Ok p2 ->
  success (linprog p1) = true -> optimal p1 (x (linprog p1)) ->
  success (linprog p2) = true -> optimal p2 (x (linprog p2)) ->
  0 < effective_capacity battery * efficiency battery ->
  0 <= c1 ->
  c1 < c2 \/ c1 = c2 ->
  NM_yield linprog prices battery start_soc end_soc c1 = Ok y1 ->
  NM_yield linprog prices battery start_soc end_soc c2 = Ok y2 ->
  raw_yield prices (x (linprog p2)) <= raw_yield prices (x (linprog p1)) /\
  y2 <= y1 + (2 # 10000) * price_mass prices.
Proof.
  intros H1 H2 S1 O1 S2 O2 HE H0 Hc Y1 Y2.
  assert (Hraw : raw_yield prices (x (linprog p2))
                 <= raw_yield prices (x (linprog p1))).
  { destruct Hc as [Hlt | ->].
    - exact (NM_raw_yield_monotone _ _ _ _ _ _ _ _ _ _ H1 H2 O1 O2 HE H0 Hlt).
    - rewrite H1 in H2. inversion H2. apply Qle_refl. }
  split; [exact Hraw|].
  destruct (NM_feasible_meaning _ _ _ _ _ _ _ H1 (proj1 O1)) as (L1 & N1 & _).
  destruct (NM_feasible_meaning _ _ _ _ _ _ _ H2 (proj1 O2)) as (L2 & N2 & _).
  rewrite (NM_yield_value _ _ _ _ _ _ _ _ H1 S1 L1 Y1).
  rewrite (NM_yield_value _ _ _ _ _ _ _ _ H2 S2 L2 Y2).
  destruct O1 as [(_ & _ & _ & P1 & _) _].
  destruct O2 as [(_ & _ & _ & P2 & _) _].
  pose proof (reported_yield_near prices _ P1) as [A1 A2].
  pose proof (reported_yield_near prices _ P2) as [B1 B2].
  lra.
Qed.

(** The amended C7 for the prices 1 and 2 and [unit_battery]: a full
    cycle is optimal for cutoff 0 and idling for cutoff 2. *)
Lemma C7_yield_monotone_witness :
  raw_yield [1; 2] nm_idle <= raw_yield [1; 2] nm_cycle /\
  exists y1 y2,
    NM_yield (table_solver 0 nm_cycle nm_idle) [1; 2] unit_battery 0 0 0
    = Ok y1 /\
    NM_yield (table_solver 0 nm_cycle nm_idle) [1; 2] unit_battery 0 0 2
    = Ok y2 /\
    y2 <= y1 + (2 # 10000) * price_mass [1; 2].
Proof.
  assert (H1 : exists p, NM.problem (NM.__init__ [1; 2] unit_battery 0 0 0)
                         = Ok p) by (eexists; vm_compute; reflexivity).
  assert (H2 : exists p, NM.problem (NM.__init__ [1; 2] unit_battery 0 0 2)
                         = Ok p) by (eexists; vm_compute; reflexivity).
  destruct H1 as [p1 H1]. destruct H2 as [p2 H2].
  assert (Y1 : exists y,
             NM_yield (table_solver 0 nm_cycle nm_idle) [1; 2] unit_battery
               0 0 0 = Ok y) by (eexists; vm_compute; reflexivity).
  assert (Y2 : exists y,
             NM_yield (table_solver 0 nm_cycle nm_idle) [1; 2] unit_battery
               0 0 2 = Ok y) by (eexists; vm_compute; reflexivity).
  destruct Y1 as [y1 Y1]. destruct Y2 as [y2 Y2].
  assert (X1 : x (table_solver 0 nm_cycle nm_idle p1) = nm_cycle).
  { revert H1. vm_compute. intros H1. inversion H1. reflexivity. }
  assert (X2 : x (table_solver 0 nm_cycle nm_idle p2) = nm_idle).
  { revert H2. vm_compute. intros H2. inversion H2. reflexivity. }
  destruct (C7_yield_monotone (table_solver 0 nm_cycle nm_idle) [1; 2]
              unit_battery 0 0 0 2 p1 p2 y1 y2 H1 H2) as [Hraw Hrep].
  - reflexivity.
  - rewrite X1. apply unit_cycle_optimal. exact H1.
  - reflexivity.
  - rewrite X2. apply unit_idle_optimal. exact H2.
  - vm_compute. reflexivity.
  - vm_compute. discriminate.
  - left. vm_compute. reflexivity.
  - exact Y1.
  - exact Y2.
  - rewrite X1, X2 in Hraw. split; [exact Hraw|].
    exists y1, y2. split; [exact Y1|]. split; [exact Y2|]. exact Hrep.
Defined.

(** *** The counterexamples do not depend on the solver's choice

    The optimal flows of the two rounding instances are unique, so every
    solver that returns optimal solutions reports these yields. *)

Lemma round_half_even_comp (a b : Q) :
  a == b -> round_half_even a = round_half_even b.
Proof.
  intros H. unfold round_half_even.
  rewrite (Qfloor_comp _ _ H).
  assert (E : a - inject_Z (Qfloor b) == b - inject_Z (Qfloor b))
    by (rewrite H; reflexivity).
  rewrite (Qcompare_comp _ _ E _ _ (Qeq_refl (1 # 2))). reflexivity.
Qed.

Lemma py_round_comp (a b : Q) (n : nat) : a == b -> py_round a n = py_round b n.
Proof.
  intros H. unfold py_round.
  rewrite (round_half_even_comp (a * pow10 n) (b * pow10 n))
    by (rewrite H; reflexivity).
  reflexivity.
Qed.

Lemma trickle_optimum_flows (p : lp_problem) (v : list Q) :
  NM.problem (NM.__init__ [1; 3] trickle_battery 0 0 0) = Ok p ->
  optimal p v ->
  var v 0 == 0 /\ var v 1 == 3 # 100000 /\
  var v 2 == 6 # 100000 /\ var v 3 == 0.
Proof.
  intros Hp [Hf Ho].
  pose proof (Ho trickle_cycle (proj1 (trickle_cycle_optimal p Hp))) as Hle.
  revert Hle. two_periods Hp Hf. intros Hle. repeat split; lra.
Qed.

Lemma trickle_idle_flows (p : lp_problem) (v : list Q) :
  NM.problem (NM.__init__ [1; 3] trickle_battery 0 0 10) = Ok p ->
  optimal p v ->
  var v 0 == 0 /\ var v 1 == 0 /\ var v 2 == 0 /\ var v 3 == 0.
Proof.
  intros Hp [Hf Ho].
  pose proof (Ho nm_idle (proj1 (trickle_idle_optimal p Hp))) as Hle.
  revert Hle. two_periods Hp Hf. intros Hle. repeat split; lra.
Qed.

Lemma trickle_reported_any_optimum (p1 p2 : lp_problem) (v1 v2 : list Q) :
  NM.problem (NM.__init__ [1; 3] trickle_battery 0 0 0) = Ok p1 ->
  NM.problem (NM.__init__ [1; 3] trickle_battery 0 0 10) = Ok p2 ->
  optimal p1 v1 ->
  optimal p2 v2 ->
  reported_yield [1; 3] v1 == - (1 # 10000) /\
  reported_yield [1; 3] v2 == 0.
Proof.
  intros H1 H2 O1 O2.
  destruct (trickle_optimum_flows p1 v1 H1 O1) as (A0 & A1 & A2 & A3).
  destruct (trickle_idle_flows p2 v2 H2 O2) as (B0 & B1 & B2 & B3).
  unfold reported_yield.
  cbn [List.length sum_upto nth Nat.add].
  rewrite (py_round_comp (Qabs (var v1 0)) (Qabs 0))
    by (rewrite A0; reflexivity).
  rewrite (py_round_comp (Qabs (var v1 1)) (Qabs (3 # 100000)))
    by (rewrite A1; reflexivity).
  rewrite (py_round_comp (var v1 2) (6 # 100000)) by exact A2.
  rewrite (py_round_comp (var v1 3) 0) by exact A3.
  rewrite (py_round_comp (Qabs (var v2 0)) (Qabs 0))
    by (rewrite B0; reflexivity).
  rewrite (py_round_comp (Qabs (var v2 1)) (Qabs 0))
    by (rewrite B1; reflexivity).
  rewrite (py_round_comp (var v2 2) 0) by exact B2.
  rewrite (py_round_comp (var v2 3) 0) by exact B3.
  split; vm_compute; reflexivity.
Qed.

Lemma lossy_optimum_yields (p1 p2 : lp_problem) (v1 v2 : list Q) :
  NM.problem (NM.__init__ [1; 1] lossy_battery 0 0 (- (1))) = Ok p1 ->
  NM.problem (NM.__init__ [1; 1] lossy_battery 0 0 0) = Ok p2 ->
  optimal p1 v1 ->
  optimal p2 v2 ->
  raw_yield [1; 1] v1 == - (1 # 2) /\ raw_yield [1; 1] v2 == 0.
Proof.
  intros H1 H2 [F1 O1] [F2 O2].
  pose proof (O1 lossy_cycle (proj1 (lossy_cycle_optimal p1 H1))) as L1.
  pose proof (O2 nm_idle (proj1 (lossy_idle_optimal p2 H2))) as L2.
  split.
  - revert L1. two_periods H1 F1. intros L1.
    repeat match goal with
    | H : _ \/ _ |- _ => destruct H
    end; lra.
  - revert L2. two_periods H2 F2. intros L2. lra.
Qed.

(** ** The constraint builders run to their end *)

Lemma comprehension_ok {A B : Type} (f : A -> result B) (g : A -> B)
  (l : list A) :
  (forall a, In a l -> f a = Ok (g a)) -> comprehension f l = Ok (map g l).
Proof.
  induction l as [|a l IH]; intros H; simpl; [reflexivity|].
  rewrite (H a) by (left; reflexivity). cbn [bind].
  rewrite IH by (intros b Hb; apply H; right; exact Hb). reflexivity.
Qed.

(** One loop of a builder whose rows only assign in range. *)
Ltac loop_ok :=
  erewrite append_rows_ok;
  [ cbn [bind fst snd]
  | let i := fresh "i" in
    let Hi := fresh "Hi" in
    intros i Hi;
    repeat (rewrite setitem_ok by index_bound; cbn [bind]);
    repeat (rewrite py_div_nonzero by assumption; cbn [bind]);
    repeat (rewrite setitem_ok by index_bound; cbn [bind]);
    repeat (rewrite py_div_nonzero by assumption; cbn [bind]);
    repeat (rewrite setitem_ok by index_bound; cbn [bind]);
    reflexivity ].

Lemma nonzero_factors (a b : Q) : ~ a * b == 0 -> ~ a == 0 /\ ~ b == 0.
Proof.
  intros H. split; intros E; apply H; rewrite E; ring.
Qed.

(** The net-metering problem is built without an exception for every
    battery whose effective capacity times efficiency is not 0. *)
Lemma NM_problem_ok (prices : list Q) (battery : Battery)
  (start_soc end_soc cutoff : Q) :
  ~ effective_capacity battery * efficiency battery == 0 ->
  exists p,
    NM.problem (NM.__init__ prices battery start_soc end_soc cutoff) = Ok p.
Proof.
  intros HE.
  destruct (nonzero_factors _ _ HE) as [Hcap Heff].
  destruct (nonzero_factors _ _ Hcap) as [_ Hsize].
  assert (Hse : ~ battery_size battery * efficiency battery == 0).
  { intros E. apply Qmult_integral in E. tauto. }
  unfold NM.problem, NM.objective.
  rewrite (comprehension_ok _
             (fun p0 => - p0 + cutoff / (effective_capacity battery
                                         * efficiency battery))).
  2:{ intros a _. unfold effective_capacity in HE.
      cbn [NM.__init__ NM.battery NM.cutoff].
      rewrite py_div_nonzero by exact HE. reflexivity. }
  cbn [bind].
  unfold NM._create_ineqality_constraints.
  cbn [NM.__init__ NM.T NM.battery NM.M NM.start_soc NM.end_soc].
  do 6 loop_ok.
  unfold NM._create_equality_constraints.
  cbn [NM.__init__ NM.T].
  erewrite append_rows_ok.
  - cbn [bind fst snd]. eexists. reflexivity.
  - intros i Hi. unfold NM.transition_row.
    cbn [NM.__init__ NM.T NM.battery NM.start_soc NM.end_soc].
    instantiate (1 := fun i =>
      if (i =? 0)%nat then start_soc
      else if (i <? List.length prices - 1)%nat then 0 else - end_soc).
    instantiate (1 := fun i =>
      let z := rep 0 (4 * List.length prices) in
      let cx := 1 / (battery_size battery * efficiency battery) in
      let cy := - (1) / battery_size battery in
      if (i =? 0)%nat then
        upd (upd (upd z (2 * List.length prices + i + 1) 1)
               (0 * List.length prices + i) cx)
          (1 * List.length prices + i) cy
      else if (i <? List.length prices - 1)%nat then
        upd (upd (upd (upd z (2 * List.length prices + i) (- (1)))
                    (2 * List.length prices + i + 1) 1)
               (0 * List.length prices + i) cx)
          (1 * List.length prices + i) cy
      else
        upd (upd (upd z (2 * List.length prices + i) (- (1)))
               (0 * List.length prices + i) cx)
          (1 * List.length prices + i) cy).
    cbv beta zeta.
    destruct (Nat.eqb_spec i 0) as [->|Hi0];
      [|destruct (Nat.ltb_spec i (List.length prices - 1))];
      repeat (rewrite setitem_ok by index_bound; cbn [bind]);
      repeat (rewrite py_div_nonzero by assumption; cbn [bind]);
      repeat (rewrite setitem_ok by index_bound; cbn [bind]);
      repeat (rewrite py_div_nonzero by assumption; cbn [bind]);
      repeat (rewrite setitem_ok by index_bound; cbn [bind]);
      reflexivity.
Qed.

Lemma set_block_ok (n off : nat) (l : list Q) :
  (n + off <= List.length l)%nat ->
  exists l', General.set_block n off l = Ok l'.
Proof.
  intros H. unfold General.set_block, for_range.
  assert (G : forall idx l0,
    List.length l0 = List.length l ->
    (forall i, In i idx -> (i < n)%nat) ->
    exists l',
      for_each idx (fun i tmp_list => setitem tmp_list (i + off) 1) l0
      = Ok l').
  { induction idx as [|i idx IH]; intros l0 Hl Hin; simpl.
    - eexists. reflexivity.
    - assert (Hi : (i < n)%nat) by (apply Hin; left; reflexivity).
      rewrite setitem_ok by lia. cbn [bind].
      apply IH; [rewrite length_upd; exact Hl|].
      intros j Hj. apply Hin. right. exact Hj. }
  apply G; [reflexivity|]. intros i Hi. apply in_seq in Hi. lia.
Qed.

(** One loop of a builder of the general model: rows that assign in
    range, read the two load series in range and read the interval
    fraction [Hf]. *)
Ltac general_loop_ok Hf :=
  erewrite append_rows_ok;
  [ cbn [bind fst snd]
  | let i := fresh "i" in
    let Hi := fresh "Hi" in
    intros i Hi;
    repeat (rewrite setitem_ok by index_bound; cbn [bind]);
    try (rewrite (getitem_ok _ _ 0) by lia; cbn [bind]);
    try (rewrite Hf; cbn [getattr bind]);
    reflexivity ].

(** The general problem is built without an exception once the interval
    fraction is assigned, for every battery whose effective capacity
    times efficiency is not 0. *)
Lemma General_problem_ok (df : DataFrame.t) (battery : Battery)
  (start_soc end_soc tax_rate tax_per_kwh : Q) (agd agc : bool) (cutoff : Q)
  (interval : string) :
  interval = "hour"%string \/ interval = "quarter"%string ->
  ~ effective_capacity battery * efficiency battery == 0 ->
  exists self p,
    General.problem
      (fst (General.__init__ df battery start_soc end_soc tax_rate
              tax_per_kwh agd agc cutoff interval)) = Ok (self, p).
Proof.
  intros Hint HE.
  destruct (nonzero_factors _ _ HE) as [Hcap Heff].
  destruct (nonzero_factors _ _ Hcap) as [_ Hsize].
  assert (Hse : ~ battery_size battery * efficiency battery == 0).
  { intros E. apply Qmult_integral in E. tauto. }
  destruct (General_init_fields df battery start_soc end_soc tax_rate
              tax_per_kwh agd agc cutoff interval)
    as (Hb & Hs & He & Hc & Hp & Hpt & Hu & Hfe & _).
  assert (Hf : exists f,
            General.interval_fraction
              (fst (General.__init__ df battery start_soc end_soc tax_rate
                      tax_per_kwh agd agc cutoff interval)) = Some f).
  { destruct Hint as [-> | ->]; eexists; reflexivity. }
  destruct Hf as [f Hf].
  set (self0 := fst (General.__init__ df battery start_soc end_soc tax_rate
                       tax_per_kwh agd agc cutoff interval)) in *.
  unfold General.problem.
  set (n := List.length (General.prices self0)).
  assert (Hn : n = List.length df) by (unfold n; rewrite Hp; apply length_map).
  set (self := General.set_T self0 n).
  assert (Hlu : List.length (General.electricity_use self) = n)
    by (cbn; rewrite Hu, length_map; lia).
  assert (Hlf : List.length (General.electricity_feedin self) = n)
    by (cbn; rewrite Hfe, length_map; lia).
  assert (Hf' : General.interval_fraction self = Some f) by exact Hf.
  assert (Hb' : General.battery self = battery) by exact Hb.
  unfold General.objective.
  replace (General.battery self) with battery.
  replace (General.cutoff self) with cutoff by (symmetry; exact Hc).
  unfold effective_capacity in HE.
  rewrite py_div_nonzero by exact HE. cbn [bind].
  unfold General._create_ineqality_constraints.
  change (General.T self) with (Some n). cbn [getattr bind].
  do 8 general_loop_ok Hf'.
  unfold General._create_equality_constraints.
  change (General.T self) with (Some n). cbn [getattr bind].
  erewrite (append_rows_ok n (General.transition_row self n)).
  2:{ intros i Hi. unfold General.transition_row. rewrite Hb'.
      instantiate (1 := fun i =>
        if (i =? 0)%nat then General.start_soc self
        else if (i <? n - 1)%nat then 0 else - General.end_soc self).
      instantiate (1 := fun i =>
        let z := rep 0 (8 * n) in
        let cx := 1 / (battery_size battery * efficiency battery) in
        let cy := - (1) / battery_size battery in
        if (i =? 0)%nat then
          upd (upd (upd z (6 * n + i + 1) 1) (4 * n + i) cx) (5 * n + i) cy
        else if (i <? n - 1)%nat then
          upd (upd (upd (upd z (6 * n + i) (- (1))) (6 * n + i + 1) 1)
                 (4 * n + i) cx) (5 * n + i) cy
        else
          upd (upd (upd z (6 * n + i) (- (1))) (4 * n + i) cx)
            (5 * n + i) cy).
      cbv beta zeta.
      destruct (Nat.eqb_spec i 0) as [->|Hi0];
        [|destruct (Nat.ltb_spec i (n - 1))];
        repeat (rewrite setitem_ok by index_bound; cbn [bind]);
        repeat (rewrite py_div_nonzero by assumption; cbn [bind]);
        repeat (rewrite setitem_ok by index_bound; cbn [bind]);
        repeat (rewrite py_div_nonzero by assumption; cbn [bind]);
        repeat (rewrite setitem_ok by index_bound; cbn [bind]);
        reflexivity. }
  cbn [bind fst snd].
  do 2 general_loop_ok Hf'.
  destruct (set_block_ok n 0 (rep 0 (8 * n))) as [l1 Hl1];
    [rewrite length_rep; lia|].
  destruct (set_block_ok n (2 * n) (rep 0 (8 * n))) as [l2 Hl2];
    [rewrite length_rep; lia|].
  destruct (negb (General.allow_grid_discharge self));
    destruct (negb (General.allow_grid_charge self));
    rewrite ?Hl1, ?Hl2; cbn [bind fst snd]; rewrite ?Hl1, ?Hl2;
    cbn [bind fst snd]; eexists; eexists; reflexivity.
Qed.

(** ** Where the code departs from its documentation *)

(** After a failed solve the general model reports a yield of 0 and the
    no-battery cost. *)
Lemma General_unsolved_yield (self : General.EpexOptimizer) (n : nat) :
  General.opt self = None ->
  General.T self = Some n ->
  List.length (General.prices self) = n ->
  List.length (General.prices_tax self) = n ->
  List.length (General.electricity_use self) = n ->
  List.length (General.electricity_feedin self) = n ->
  General.compute_yield self
  = Ok ((0, original_cost (General.electricity_use self)
              (General.electricity_feedin self) (General.prices self)
              (General.prices_tax self)),
        self).
Proof.
  intros Ho HT Lp Lt Lu Lf. unfold General.compute_yield.
  rewrite Ho, HT. cbn [getattr bind].
  rewrite (for_range_sum n _
             (fun t =>
                py_round (- nth t (General.electricity_feedin self) 0
                          * nth t (General.prices self) 0
                          + nth t (General.electricity_use self) 0
                            * nth t (General.prices_tax self) 0) 6)).
  - cbn [bind]. unfold original_cost. rewrite Lp. reflexivity.
  - intros i y Hi. unfold General.orig_cost_term.
    rewrite (getitem_ok (General.electricity_feedin self) i 0) by lia.
    rewrite (getitem_ok (General.prices self) i 0) by lia.
    rewrite (getitem_ok (General.electricity_use self) i 0) by lia.
    rewrite (getitem_ok (General.prices_tax self) i 0) by lia.
    reflexivity.
Qed.

Lemma append_rows_raise (n : nat) (mk_row : nat -> result (list Q * Q))
  (acc : list (list Q) * list Q) (e : exn) :
  (1 <= n)%nat -> mk_row 0%nat = Raise e -> append_rows n mk_row acc = Raise e.
Proof.
  intros Hn H0. unfold append_rows, for_range.
  destruct n as [|n]; [lia|]. destruct acc as [A b]. simpl.
  rewrite H0. reflexivity.
Qed.

(** For every selector other than ["hour"] and ["quarter"], every
    non-empty data frame and every solver, [LP_optimize] raises. *)
Lemma General_invalid_interval_raises
  (linprog : lp_problem -> OptimizeResult) (r : DataFrame.row)
  (df : DataFrame.t) (battery : Battery)
  (start_soc end_soc tax_rate tax_per_kwh : Q) (agd agc : bool) (cutoff : Q)
  (interval : string) :
  interval <> "hour"%string ->
  interval <> "quarter"%string ->
  ~ effective_capacity battery * efficiency battery == 0 ->
  General.LP_optimize linprog
    (fst (General.__init__ (r :: df) battery start_soc end_soc tax_rate
            tax_per_kwh agd agc cutoff interval))
  = Raise (AttributeError "interval_fraction").
Proof.
  intros Hh Hq HE.
  destruct (General_init_fields (r :: df) battery start_soc end_soc tax_rate
              tax_per_kwh agd agc cutoff interval)
    as (Hb & Hs & He & Hc & Hp & Hpt & Hu & Hfe & _).
  destruct (General_invalid_interval (r :: df) battery start_soc end_soc
              tax_rate tax_per_kwh agd agc cutoff interval Hh Hq)
    as (_ & Hf).
  set (self0 := fst (General.__init__ (r :: df) battery start_soc end_soc
                       tax_rate tax_per_kwh agd agc cutoff interval)) in *.
  unfold General.LP_optimize, General.problem.
  set (n := List.length (General.prices self0)).
  assert (Hn : n = S (List.length df))
    by (unfold n; rewrite Hp; cbn; rewrite length_map; reflexivity).
  set (self := General.set_T self0 n).
  assert (Hlu : List.length (General.electricity_use self) = n)
    by (cbn; rewrite Hu; cbn; rewrite length_map; lia).
  assert (Hlf : List.length (General.electricity_feedin self) = n)
    by (cbn; rewrite Hfe; cbn; rewrite length_map; lia).
  assert (Hf' : General.interval_fraction self = None) by exact Hf.
  unfold General.objective.
  replace (General.battery self) with battery.
  replace (General.cutoff self) with cutoff by (symmetry; exact Hc).
  unfold effective_capacity in HE.
  rewrite py_div_nonzero by exact HE. cbn [bind].
  unfold General._create_ineqality_constraints.
  change (General.T self) with (Some n). cbn [getattr bind].
  do 4 general_loop_ok Hf'.
  rewrite (append_rows_raise n _ _ (AttributeError "interval_fraction"));
    [reflexivity | lia |].
  rewrite setitem_ok by index_bound. cbn [bind].
  rewrite Hf'. reflexivity.
Qed.

(** With a single period the one transition row puts its coefficient 1 on
    the flag of the period, not on a state of charge, and [end_soc] is not
    read: the recurrence of C2 needs two periods. *)
Lemma single_period_transition_row :
  NM._create_equality_constraints (NM.__init__ [2] unit_battery 0 (1 # 2) 0)
  = NM._create_equality_constraints (NM.__init__ [2] unit_battery 0 0 0) /\
  exists row,
    NM._create_equality_constraints (NM.__init__ [2] unit_battery 0 0 0)
    = Ok ([row], [0]) /\
    var row (2 * 1 + 0) == 0 /\ var row (3 * 1 + 0) == 1.
Proof.
  split; [vm_compute; reflexivity|].
  eexists. split; [vm_compute; reflexivity|].
  split; vm_compute; reflexivity.
Qed.

(** ** The two levels agree

    On prices without NaN the objectives of module [Ingest] are the
    objectives handed to the solver. *)

Lemma NM_objective_closed (prices : list Q) (battery : Battery)
  (start_soc end_soc cutoff : Q) (obj : list Q) :
  NM.objective (NM.__init__ prices battery start_soc end_soc cutoff)
  = Ok obj ->
  obj = map (fun p => - p + cutoff_rate battery cutoff) prices
        ++ map (fun p => p) prices ++ rep 0 (2 * List.length prices).
Proof.
  unfold NM.objective. cbn [NM.__init__ NM.prices NM.battery NM.cutoff NM.T].
  intros H. apply bind_ok in H as (xs & Hxs & H). inversion H; subst; clear H.
  f_equal. apply comprehension_inv in Hxs.
  induction Hxs as [|a b l bs Hab Hl IH]; [reflexivity|].
  cbn [map]. rewrite IH. f_equal.
  apply bind_ok in Hab as (q & Hq & Hab). apply py_div_ok in Hq as [_ ->].
  inversion Hab. reflexivity.
Qed.

Lemma Ingest_NM_objective_finite (prices : list Q) (battery : Battery)
  (start_soc end_soc cutoff : Q) (obj : list Q) :
  NM.objective (NM.__init__ prices battery start_soc end_soc cutoff)
  = Ok obj ->
  Ingest.NM_objective (Ingest.NM_prices (map Ingest.Fin prices))
    (cutoff_rate battery cutoff)
  = map Ingest.Fin obj.
Proof.
  intros H. rewrite (NM_objective_closed _ _ _ _ _ _ H).
  unfold Ingest.NM_objective, Ingest.NM_prices, rep.
  rewrite !map_app, !map_map, length_map, map_repeat. reflexivity.
Qed.

Lemma Ingest_objective_finite (df : DataFrame.t) (battery : Battery)
  (start_soc end_soc tax_rate tax_per_kwh : Q) (agd agc : bool) (cutoff : Q)
  (interval : string) (self : General.EpexOptimizer) (p : lp_problem) :
  General.problem
    (fst (General.__init__ df battery start_soc end_soc tax_rate
            tax_per_kwh agd agc cutoff interval)) = Ok (self, p) ->
  Ingest.objective
    (Ingest._set_period (map Ingest.lift_row df) tax_rate tax_per_kwh)
    (cutoff_rate battery cutoff) (List.length df)
  = map Ingest.Fin (c p).
Proof.
  intros Hp.
  apply General_problem_inv in Hp as (Hself & Hobj & _).
  destruct (General_init_fields df battery start_soc end_soc tax_rate
              tax_per_kwh agd agc cutoff interval)
    as (Hb & _ & _ & Hc & Hpr & Hpt & _).
  rewrite General_init_prices_length in Hself, Hobj.
  unfold General.objective in Hobj.
  apply bind_ok in Hobj as (q & Hq & Hobj). apply py_div_ok in Hq as [_ ->].
  inversion Hobj as [Hc']; clear Hobj Hc'.
  subst self. cbn [General.set_T General.prices General.prices_tax
                   General.battery General.cutoff].
  rewrite Hb, Hc, Hpr, Hpt.
  unfold Ingest.objective, Ingest._set_period, rep.
  cbn [Ingest.prices Ingest.prices_tax].
  rewrite !map_app, !map_map, !map_repeat. reflexivity.
Qed.
